(** * ccs: the settings merge engine, backups and config detection

    A shallow embedding of [src/managers/claude-code.ts] (class
    [ClaudeCodeManager]) and of the provider registry
    [src/providers/{index,claude,zhipu,minimax,kimi}.ts], with the debug
    log [src/utils/logger.ts], the credential check
    [src/lib/api-validator.ts] and the box helpers of
    [src/lib/wizard.ts].

    - JSON values are an inductive type; a JavaScript object is a finite
      map from property names to values ([gmap string json]).  The order
      of the properties of an object, which only shows in the layout of
      the text that [JSON.stringify] prints, is not part of the model.
    - The file system is a finite map from paths to file contents, and the
      manager's methods are programs in a state-and-exception monad over it.
    - [JSON.parse], [JSON.stringify] and [os.homedir] belong to the
      platform, not to the repository: they are parameters of the model;
      so are the instant of a call ([new Date().toISOString()]), the
      directories that exist when a directory is listed, and what [fetch]
      meets on the network. *)

From Stdlib Require Import ZArith Ascii String.
From stdpp Require Import gmap strings list fin_maps pretty sorting.

Set Warnings "-register-all".
Open Scope string_scope.

(** ** JSON values as JavaScript sees them *)

(** What [JSON.parse] returns.  A number is carried as an integer: the
    code never computes with numbers, it stores them, copies them and tests
    them for zero. *)
Inductive json : Type :=
  | JNull
  | JBool (b : bool)
  | JNum (n : Z)
  | JStr (s : string)
  | JArr (l : list json)
  | JObj (m : gmap string json).

(** JavaScript truthiness ([!v], [v || w], [if (v)]). *)
Definition truthy (v : json) : bool :=
  match v with
  | JNull => false
  | JBool b => b
  | JNum n => negb (n =? 0)%Z
  | JStr s => negb (String.eqb s "")
  | JArr _ => true
  | JObj _ => true
  end.

(** Truthiness of the result of a property read, where [None] is
    [undefined]. *)
Definition truthy_opt (v : option json) : bool :=
  match v with
  | Some j => truthy j
  | None => false
  end.

(** The characters of a string as one-character strings (a character is
    a byte here, a UTF-16 code unit in JavaScript: the same for ASCII). *)
Fixpoint chars (s : string) : list json :=
  match s with
  | EmptyString => []
  | String c s' => JStr (String c EmptyString) :: chars s'
  end.

(** Index keys ["0"], ["1"], ... for the elements of an array or string. *)
Definition indexed (l : list json) : gmap string json :=
  list_to_map (imap (fun i v => (pretty i, v)) l).

(** The own enumerable string-keyed properties of a value: what
    [Object.entries v] lists and what the spread [{...v}] copies.  Objects
    give their properties, arrays and strings their elements by index,
    numbers and booleans nothing; the spread of [null] copies nothing. *)
Definition Object_entries (v : json) : gmap string json :=
  match v with
  | JObj m => m
  | JArr l => indexed l
  | JStr s => indexed (chars s)
  | JNull | JBool _ | JNum _ => ∅
  end.

(** [o[key] = value] on an ordinary object.  For every key but
    ["__proto__"] this creates or overwrites the own property.  The key
    ["__proto__"] instead reaches the accessor inherited from
    [Object.prototype]: the setter changes the prototype when the value is
    an object or [null] and does nothing otherwise; in no case does the
    object get an own property, so nothing shows up in [Object.keys], in a
    spread or in [JSON.stringify]. *)
Definition assign (o : gmap string json) (key : string) (value : json)
  : gmap string json :=
  if decide (key = "__proto__") then o else <[key := value]> o.

(** ** String operations of the source *)

(** [s.includes(sub)] *)
Fixpoint includes (sub s : string) : bool :=
  String.prefix sub s ||
  match s with
  | EmptyString => false
  | String _ s' => includes sub s'
  end.

(** [s.startsWith(p)] *)
Definition startsWith (p s : string) : bool := String.prefix p s.

(** [s.replace(/\/anthropic$/, '')]: drop a trailing ["/anthropic"]. *)
Fixpoint strip_anthropic (s : string) : string :=
  if String.eqb s "/anthropic" then EmptyString
  else match s with
       | EmptyString => EmptyString
       | String c s' => String c (strip_anthropic s')
       end.

(** [s.replace(/[:.]/g, '-')] *)
Fixpoint dash_colons_dots (s : string) : string :=
  match s with
  | EmptyString => EmptyString
  | String c s' =>
      String (if Ascii.eqb c ":" || Ascii.eqb c "." then "-"%char else c)
             (dash_colons_dots s')
  end.

(** ** Providers ([src/providers/index.ts]) *)

Record ProviderRegion := {
  region_id : string;
  region_name : string;
  baseUrl : string;
  apiKeyUrl : string;
}.

Record ProviderModel := {
  model_id : string;
  model_name : string;
  thinking : option bool;
  default : option bool;
}.

Record Provider := {
  id : string;
  name : string;
  description : string;
  regions : list ProviderRegion;
  models : list ProviderModel;
  getEnvOverrides : string -> gmap string string;
  getValidateUrl : string -> string;
}.

Definition mkModel (i n : string) : ProviderModel :=
  {| model_id := i; model_name := n; thinking := None; default := None |}.

Definition mkDefaultModel (i n : string) : ProviderModel :=
  {| model_id := i; model_name := n; thinking := None; default := Some true |}.

Definition claudeProvider : Provider := {|
  id := "claude";
  name := "Anthropic (Claude)";
  description := "Official Anthropic Claude API";
  regions := [
    {| region_id := "global"; region_name := "Global";
       baseUrl := "https://api.anthropic.com";
       apiKeyUrl := "https://console.anthropic.com/settings/keys" |} ];
  models := [
    mkDefaultModel "claude-opus-4-5-20251120" "Claude Opus 4.5";
    mkModel "claude-sonnet-4-20250514" "Claude Sonnet 4";
    mkModel "claude-haiku-3-5-20250620" "Claude Haiku 3.5";
    mkModel "claude-3-5-sonnet-20241022" "Claude 3.5 Sonnet";
    mkModel "claude-3-opus-20240229" "Claude 3 Opus";
    mkModel "claude-3-sonnet-20240229" "Claude 3 Sonnet";
    mkModel "claude-3-haiku-20240307" "Claude 3 Haiku" ];
  getEnvOverrides model := {[ "ANTHROPIC_MODEL" := model ]};
  getValidateUrl _ := "https://api.anthropic.com/v1/models";
|}.

Definition zhipuProvider : Provider := {|
  id := "zhipu";
  name := "Z.AI / GLM";
  description := "Zhipu AI GLM Coding Plan";
  regions := [
    {| region_id := "global"; region_name := "Global";
       baseUrl := "https://api.z.ai/api/anthropic";
       apiKeyUrl := "https://z.ai/manage-apikey/apikey-list" |};
    {| region_id := "china"; region_name := "China";
       baseUrl := "https://open.bigmodel.cn/api/anthropic";
       apiKeyUrl := "https://bigmodel.cn/usercenter/proj-mgmt/apikeys" |} ];
  models := [ mkDefaultModel "glm-5" "GLM-5" ];
  getEnvOverrides _ := ∅;
  getValidateUrl regionId :=
    if String.eqb regionId "global"
    then "https://api.z.ai/api/coding/paas/v4/models"
    else "https://open.bigmodel.cn/api/coding/paas/v4/models";
|}.

Definition minimaxProvider : Provider := {|
  id := "minimax";
  name := "MiniMax";
  description := "MiniMax M2.5 AI Model";
  regions := [
    {| region_id := "global"; region_name := "Global";
       baseUrl := "https://api.minimax.io/anthropic";
       apiKeyUrl := "https://platform.minimax.io/user-center/basic-information/interface-key" |};
    {| region_id := "china"; region_name := "China";
       baseUrl := "https://api.minimaxi.com/anthropic";
       apiKeyUrl := "https://platform.minimaxi.com/user-center/basic-information/interface-key" |} ];
  models := [ mkDefaultModel "MiniMax-M2.5" "MiniMax-M2.5" ];
  getEnvOverrides model :=
    <[ "ANTHROPIC_MODEL" := model ]>
    (<[ "ANTHROPIC_SMALL_FAST_MODEL" := model ]>
    (<[ "ANTHROPIC_DEFAULT_SONNET_MODEL" := model ]>
    (<[ "ANTHROPIC_DEFAULT_OPUS_MODEL" := model ]>
    (<[ "ANTHROPIC_DEFAULT_HAIKU_MODEL" := model ]> ∅))));
  getValidateUrl regionId :=
    if String.eqb regionId "global"
    then "https://api.minimax.io/anthropic/v1/models"
    else "https://api.minimaxi.com/anthropic/v1/models";
|}.

Definition kimiProvider : Provider := {|
  id := "kimi";
  name := "Kimi / Moonshot";
  description := "Moonshot AI Kimi K2 Models";
  regions := [
    {| region_id := "global"; region_name := "Global";
       baseUrl := "https://api.moonshot.ai/anthropic";
       apiKeyUrl := "https://platform.moonshot.ai/console/api-keys" |} ];
  models := [
    mkDefaultModel "kimi-k2.5" "Kimi K2.5 (Latest)";
    {| model_id := "kimi-k2-thinking-turbo";
       model_name := "Kimi K2 Thinking Turbo";
       thinking := Some true; default := None |};
    mkModel "kimi-k2-turbo-preview" "Kimi K2 Turbo Preview (Fast)";
    mkModel "kimi-k2-0905-preview" "Kimi K2 0905 Preview (256K)" ];
  getEnvOverrides model :=
    <[ "ANTHROPIC_MODEL" := model ]>
    (<[ "ANTHROPIC_DEFAULT_SONNET_MODEL" := model ]>
    (<[ "ANTHROPIC_DEFAULT_OPUS_MODEL" := model ]>
    (<[ "ANTHROPIC_DEFAULT_HAIKU_MODEL" := model ]>
    (<[ "CLAUDE_CODE_SUBAGENT_MODEL" := model ]> ∅))));
  getValidateUrl _ := "https://api.moonshot.ai/v1/models";
|}.

Definition providers : list Provider :=
  [claudeProvider; zhipuProvider; minimaxProvider; kimiProvider].

Definition getProvider (i : string) : option Provider :=
  find (fun p => String.eqb (id p) i) providers.

(** Detect which provider is active based on ANTHROPIC_BASE_URL. *)
Definition detectProviderByBaseUrl (url : string) : option Provider :=
  find (fun p =>
          existsb (fun r => startsWith (strip_anthropic (baseUrl r)) url)
                  (regions p))
       providers.

(** ** Exceptions *)

(** What a [throw] carries: an [Error] made by the code with its message,
    the [TypeError] of a property read on [null] or of a call of a missing
    method, the [SyntaxError] of [JSON.parse], and the [ENOENT] of reading
    a file that is not there. *)
Inductive exn : Type :=
  | Error (message : string)
  | TypeError
  | SyntaxError
  | ENOENT.

Inductive Result (A : Type) : Type :=
  | Ok (a : A)
  | Throw (e : exn).
Arguments Ok {A} a.
Arguments Throw {A} e.

#[export] Instance Result_ret : MRet Result := @Ok.
#[export] Instance Result_bind : MBind Result := fun A B f r =>
  match r with
  | Ok a => f a
  | Throw e => Throw e
  end.

(** [v.key]: [undefined] ([None]) when the property is absent, a
    [TypeError] when [v] is [null].  The lookup is among the own
    properties; the names the source reads ([env], [model],
    [hasCompletedOnboarding], [ANTHROPIC_...]) are defined on no built-in
    prototype, so for them this is the whole lookup. *)
Definition getProp (v : json) (key : string) : Result (option json) :=
  match v with
  | JNull => Throw TypeError
  | _ => Ok (Object_entries v !! key)
  end.

(** [v || {}] *)
Definition orEmpty (v : option json) : json :=
  match v with
  | Some j => if truthy j then j else JObj ∅
  | None => JObj ∅
  end.

(** ** The settings merge engine ([src/managers/claude-code.ts]) *)

(** All env keys we manage. *)
Definition MANAGED_ENV_KEYS : list string := [
  "ANTHROPIC_AUTH_TOKEN";
  "ANTHROPIC_BASE_URL";
  "API_TIMEOUT_MS";
  "CLAUDE_CODE_DISABLE_NONESSENTIAL_TRAFFIC";
  "ANTHROPIC_MODEL";
  "ANTHROPIC_SMALL_FAST_MODEL";
  "ANTHROPIC_DEFAULT_SONNET_MODEL";
  "ANTHROPIC_DEFAULT_OPUS_MODEL";
  "ANTHROPIC_DEFAULT_HAIKU_MODEL";
  "CLAUDE_CODE_SUBAGENT_MODEL"
].

(** [MANAGED_ENV_KEYS.includes(key)] *)
Definition managed (key : string) : bool :=
  bool_decide (key ∈ MANAGED_ENV_KEYS).

(** The loop shared by load and unload:
    [[
      const cleanedEnv = {};
      for (const [key, value] of Object.entries(existingEnv))
        if (!MANAGED_ENV_KEYS.includes(key)) cleanedEnv[key] = value;
    ]] *)
Definition cleanedEnv (existingEnv : json) : gmap string json :=
  map_fold
    (fun key value cleaned =>
       if managed key then cleaned else assign cleaned key value)
    ∅ (Object_entries existingEnv).

(** The object literal
    [{...cleanedEnv, ANTHROPIC_AUTH_TOKEN: apiKey, ANTHROPIC_BASE_URL:
    region.baseUrl, API_TIMEOUT_MS: '3000000',
    CLAUDE_CODE_DISABLE_NONESSENTIAL_TRAFFIC: 1}]. *)
Definition baseEnv (cleaned : gmap string json) (region : ProviderRegion)
    (apiKey : string) : gmap string json :=
  <["CLAUDE_CODE_DISABLE_NONESSENTIAL_TRAFFIC" := JNum 1]>
  (<["API_TIMEOUT_MS" := JStr "3000000"]>
  (<["ANTHROPIC_BASE_URL" := JStr (baseUrl region)]>
  (<["ANTHROPIC_AUTH_TOKEN" := JStr apiKey]> cleaned))).

(** The base config followed by the provider-specific overrides:
    [for (const [key, value] of Object.entries(overrides)) newEnv[key] = value]. *)
Definition newEnv (provider : Provider) (region : ProviderRegion)
    (modelId apiKey : string) (cleaned : gmap string json)
  : gmap string json :=
  map_fold (fun key value env => assign env key (JStr value))
           (baseEnv cleaned region apiKey)
           (getEnvOverrides provider modelId).

Definition mapModelToSetting (modelId providerId : string) : string :=
  if String.eqb providerId "claude" then
    if includes "opus" modelId then "opus"
    else if includes "sonnet" modelId then "sonnet"
    else if includes "haiku" modelId then "haiku"
    else modelId
  else modelId.

(** Lines 229-263 of [loadProviderConfig] as a function of the document
    that [getSettings] returned: the argument of [saveSettings]. *)
Definition mergeSettings (provider : Provider) (region : ProviderRegion)
    (modelId apiKey : string) (settings : json) : Result json :=
  env ← getProp settings "env";
  let existingEnv := orEmpty env in
  let env' := newEnv provider region modelId apiKey (cleanedEnv existingEnv) in
  let modelSetting := mapModelToSetting modelId (id provider) in
  mret (JObj (<["model" := JStr modelSetting]>
             (<["env" := JObj env']> (Object_entries settings)))).

(** [provider.regions.find(r => r.id === regionId)] *)
Definition findRegion (provider : Provider) (regionId : string)
  : option ProviderRegion :=
  find (fun r => String.eqb (region_id r) regionId) (regions provider).

(** The computation of [loadProviderConfig] without its file accesses:
    from the current document to the document that is saved. *)
Definition apply_config (provider : Provider) (regionId modelId apiKey : string)
    (currentDocument : json) : Result json :=
  match findRegion provider regionId with
  | None => Throw (Error ("Unknown region: " +:+ regionId))
  | Some region => mergeSettings provider region modelId apiKey currentDocument
  end.

(** The computation of [unloadProviderConfig] on the document that
    [getSettings] returned: [None] for the early [return] (nothing is
    saved), [Some d] for [saveSettings(d)]. *)
Definition unloadSettings (settings : json) : Result (option json) :=
  env ← getProp settings "env";
  model ← getProp settings "model";
  if negb (truthy_opt env) && negb (truthy_opt model) then mret None
  else
    let cleaned :=
      if truthy_opt env then cleanedEnv (orEmpty env) else ∅ in
    let newSettings : gmap string json :=
      if bool_decide (0 < size cleaned) then assign ∅ "env" (JObj cleaned)
      else ∅ in
    mret (Some (JObj newSettings)).

(** The settings document after an unload of [currentDocument]. *)
Definition unload (currentDocument : json) : Result json :=
  saved ← unloadSettings currentDocument;
  mret (match saved with
        | Some d => d
        | None => currentDocument
        end).

(** ** The config detector *)

Record DetectedConfig := {
  detected_provider : option Provider;
  detected_regionId : option string;
  detected_apiKey : option json;
  detected_baseUrl : option json;
  detected_model : option json;
}.

Definition nothing_detected : DetectedConfig :=
  {| detected_provider := None; detected_regionId := None;
     detected_apiKey := None; detected_baseUrl := None;
     detected_model := None |}.

(** [detectCurrentConfig] on the document that [getSettings] returned.
    [detectProviderByBaseUrl] calls [baseUrl.startsWith], which exists on
    strings only: a truthy base URL of another type ends in a
    [TypeError]. *)
Definition detect (settings : json) : Result DetectedConfig :=
  e ← getProp settings "env";
  let env := orEmpty e in
  url ← getProp env "ANTHROPIC_BASE_URL";
  key ← getProp env "ANTHROPIC_AUTH_TOKEN";
  model ← getProp env "ANTHROPIC_MODEL";
  if negb (truthy_opt url) || negb (truthy_opt key) then mret nothing_detected
  else
    match url with
    | Some (JStr u) =>
        let provider := detectProviderByBaseUrl u in
        let regionId :=
          match provider with
          | Some p =>
              region_id <$> find (fun r => String.eqb (baseUrl r) u) (regions p)
          | None => None
          end in
        mret {| detected_provider := provider; detected_regionId := regionId;
                detected_apiKey := key; detected_baseUrl := url;
                detected_model := model |}
    | _ => Throw TypeError
    end.

(** ** Files and effects *)

(** The file system as the manager sees it: the content of the file at
    each path.  Directories are not tracked, so creating one
    ([mkdirSync], [ensureDir]) changes nothing here. *)
Abbreviation FS := (gmap string string).

(** A method of the manager: it runs on a file system, returns or throws,
    and leaves a file system.  What was written before a [throw] stays
    written. *)
Definition M (A : Type) : Type := FS -> Result A * FS.

#[export] Instance M_ret : MRet M := fun A a fs => (Ok a, fs).
#[export] Instance M_bind : MBind M := fun A B f m fs =>
  match m fs with
  | (Ok a, fs') => f a fs'
  | (Throw e, fs') => (Throw e, fs')
  end.

Definition throw {A : Type} (e : exn) : M A := fun fs => (Throw e, fs).

Definition lift {A : Type} (r : Result A) : M A := fun fs => (r, fs).

(** [try { body } catch { handler }] *)
Definition try_catch {A : Type} (body : M A) (handler : exn -> M A) : M A :=
  fun fs =>
    match body fs with
    | (Ok a, fs') => (Ok a, fs')
    | (Throw e, fs') => handler e fs'
    end.

Definition existsSync (path : string) : M bool :=
  fun fs => (Ok (bool_decide (is_Some (fs !! path))), fs).

Definition readFileSync (path : string) : M string :=
  fun fs =>
    match fs !! path with
    | Some content => (Ok content, fs)
    | None => (Throw ENOENT, fs)
    end.

Definition writeFileSync (path content : string) : M unit :=
  fun fs => (Ok (), <[path := content]> fs).

Definition copyFileSync (src dest : string) : M unit :=
  fun fs =>
    match fs !! src with
    | Some content => (Ok (), <[dest := content]> fs)
    | None => (Throw ENOENT, fs)
    end.

Definition ensureDir (filePath : string) : M unit := mret ().

(** [path.join] of two segments. *)
Definition join (a b : string) : string := a +:+ "/" +:+ b.

(** ** The manager *)

Section Manager.

(** [JSON.parse], with [None] for a [SyntaxError];
    [JSON.stringify(v, null, 2)]; [os.homedir()]. *)
Variable JSON_parse : string -> option json.
Variable JSON_stringify : json -> string.
Variable homedir : string.

Definition settingsPath : string := join (join homedir ".claude") "settings.json".
Definition configPath : string := join homedir ".claude.json".
Definition backupDir : string := join (join homedir ".ccs") "backups".

Definition parse (text : string) : M json :=
  match JSON_parse text with
  | Some v => mret v
  | None => throw SyntaxError
  end.

(** Read and parse the file at [path]; [{}] when it is missing, corrupted
    or unreadable.  This is the body shared by [getSettings] and
    [getConfig]. *)
Definition readDocument (path : string) : M json :=
  found ← try_catch
            (present ← existsSync path;
             if (present : bool)
             then text ← readFileSync path; v ← parse text; mret (Some v)
             else mret None)
            (fun _ => mret None);
  mret (match found with
        | Some v => v
        | None => JObj ∅
        end).

Definition getSettings : M json := readDocument settingsPath.

Definition saveSettings (settings : json) : M unit :=
  ensureDir settingsPath;;
  writeFileSync settingsPath (JSON_stringify settings).

Definition getConfig : M json := readDocument configPath.

Definition saveConfig (config : json) : M unit :=
  ensureDir configPath;;
  writeFileSync configPath (JSON_stringify config).

(** The path of the backup made at the instant whose
    [new Date().toISOString()] is [iso]. *)
Definition backupPath (iso : string) : string :=
  join backupDir ("settings-" +:+ dash_colons_dots iso +:+ ".json").

Definition createBackup (iso : string) : M string :=
  let timestamp := dash_colons_dots iso in
  let backupPath := join backupDir ("settings-" +:+ timestamp +:+ ".json") in
  present ← existsSync settingsPath;
  (if (present : bool)
   then copyFileSync settingsPath backupPath
   else writeFileSync backupPath "{}");;
  mret backupPath.

Definition restoreBackup (backupPath : string) : M unit :=
  present ← existsSync backupPath;
  (if (present : bool) then mret ()
   else throw (Error ("Backup file not found: " +:+ backupPath)));;
  text ← readFileSync backupPath;
  parse text;;
  ensureDir settingsPath;;
  copyFileSync backupPath settingsPath.

Definition ensureOnboarding : M unit :=
  config ← getConfig;
  flag ← lift (getProp config "hasCompletedOnboarding");
  if negb (truthy_opt flag)
  then saveConfig (JObj (<["hasCompletedOnboarding" := JBool true]>
                           (Object_entries config)))
  else mret ().

Definition loadProviderConfig (provider : Provider)
    (regionId modelId apiKey : string) (iso : string) : M unit :=
  createBackup iso;;
  ensureOnboarding;;
  match findRegion provider regionId with
  | None => throw (Error ("Unknown region: " +:+ regionId))
  | Some region =>
      settings ← getSettings;
      merged ← lift (mergeSettings provider region modelId apiKey settings);
      saveSettings merged
  end.

Definition unloadProviderConfig (iso : string) : M unit :=
  createBackup iso;;
  settings ← getSettings;
  saved ← lift (unloadSettings settings);
  match saved with
  | None => mret ()
  | Some newSettings => saveSettings newSettings
  end.

Definition detectCurrentConfig : M DetectedConfig :=
  settings ← getSettings;
  lift (detect settings).

End Manager.

(** ** Specification vocabulary *)

(** [sub] occurs in [s]: the specification of [s.includes(sub)]. *)
Definition contains (sub s : string) : Prop :=
  exists pre post : string, s = pre +:+ sub +:+ post.

(** ** A host for the examples *)

(** The theorems hold for every [JSON_parse] and [JSON_stringify].  The
    examples run on this host: a printer in the layout of
    [JSON.stringify(v, null, 2)] for strings without control characters,
    with the properties of an object in the order of the map, and a reader
    for JSON text whose numbers are integers and whose strings have no
    [\u] escapes (other text is rejected). *)

Definition quote : ascii := "034"%char.
Definition backslash : ascii := "092"%char.
Definition newline : string := String "010"%char EmptyString.

Fixpoint escape (s : string) : string :=
  match s with
  | EmptyString => EmptyString
  | String c s' =>
      if Ascii.eqb c quote || Ascii.eqb c backslash
      then String backslash (String c (escape s'))
      else String c (escape s')
  end.

Definition quoted (s : string) : string :=
  String quote (escape s) +:+ String quote EmptyString.

Fixpoint sep_by (sep : string) (items : list string) : string :=
  match items with
  | [] => EmptyString
  | [x] => x
  | x :: rest => x +:+ sep +:+ sep_by sep rest
  end.

Definition block (opening closing indent : string) (items : list string)
  : string :=
  match items with
  | [] => opening +:+ closing
  | _ =>
      let inner := indent +:+ "  " in
      opening +:+ newline +:+ inner
        +:+ sep_by ("," +:+ newline +:+ inner) items
        +:+ newline +:+ indent +:+ closing
  end.

Fixpoint stringify_at (indent : string) (v : json) : string :=
  match v with
  | JNull => "null"
  | JBool b => if b then "true" else "false"
  | JNum n => pretty n
  | JStr s => quoted s
  | JArr l => block "[" "]" indent (map (stringify_at (indent +:+ "  ")) l)
  | JObj m =>
      block "{" "}" indent
        (map_fold (fun k v' items =>
                     (quoted k +:+ ": " +:+ stringify_at (indent +:+ "  ") v')
                       :: items)
                  [] m)
  end.

Definition sample_stringify (v : json) : string := stringify_at "" v.

Fixpoint skip_ws (s : string) : string :=
  match s with
  | String c s' =>
      if Ascii.eqb c " " || Ascii.eqb c "010" || Ascii.eqb c "013"
         || Ascii.eqb c "009"
      then skip_ws s' else s
  | EmptyString => s
  end.

(** The rest of [s] after the word [w], when [s] starts with it. *)
Fixpoint after (w s : string) : option string :=
  match w, s with
  | EmptyString, _ => Some s
  | String a w', String b s' => if Ascii.eqb a b then after w' s' else None
  | _, EmptyString => None
  end.

(** The characters of a string literal up to its closing quote. *)
Fixpoint read_string (s : string) : option (string * string) :=
  match s with
  | EmptyString => None
  | String c s' =>
      if Ascii.eqb c quote then Some (EmptyString, s')
      else if (nat_of_ascii c <? 32)%nat then None
      else if Ascii.eqb c backslash then
        match s' with
        | String e s'' =>
            let plain (x : ascii) :=
              '(str, rest) ← read_string s''; Some (String x str, rest) in
            if Ascii.eqb e quote || Ascii.eqb e backslash || Ascii.eqb e "/"
            then plain e
            else if Ascii.eqb e "n" then plain "010"%char
            else if Ascii.eqb e "r" then plain "013"%char
            else if Ascii.eqb e "t" then plain "009"%char
            else if Ascii.eqb e "b" then plain "008"%char
            else if Ascii.eqb e "f" then plain "012"%char
            else None
        | EmptyString => None
        end
      else '(str, rest) ← read_string s'; Some (String c str, rest)
  end.

Fixpoint read_digits (acc : N) (s : string) : N * string :=
  match s with
  | String c s' =>
      match Ascii.is_nat c with
      | Some d => read_digits (10 * acc + N.of_nat d)%N s'
      | None => (acc, s)
      end
  | EmptyString => (acc, s)
  end.

Definition starts_with_digit (s : string) : bool :=
  match s with
  | String c _ => bool_decide (is_Some (Ascii.is_nat c))
  | EmptyString => false
  end.

(** An integer: an optional minus sign and digits, without a leading zero
    before another digit, a fraction or an exponent. *)
Definition read_integer (s : string) : option (Z * string) :=
  let '(negative, digits) :=
    match after "-" s with
    | Some s' => (true, s')
    | None => (false, s)
    end in
  if negb (starts_with_digit digits) then None
  else if match after "0" digits with
          | Some more => starts_with_digit more
          | None => false
          end
  then None
  else
    let '(n, rest) := read_digits 0 digits in
    match rest with
    | String c _ =>
        if Ascii.eqb c "." || Ascii.eqb c "e" || Ascii.eqb c "E" then None
        else Some (if negative then (- Z.of_N n)%Z else Z.of_N n, rest)
    | EmptyString => Some (if negative then (- Z.of_N n)%Z else Z.of_N n, rest)
    end.

Fixpoint read_value (fuel : nat) (s : string) : option (json * string) :=
  match fuel with
  | O => None
  | S fuel' =>
      let s := skip_ws s in
      let fix read_members (n : nat) (acc : gmap string json) (s : string)
          : option (json * string) :=
        match n with
        | O => None
        | S n' =>
            body ← after (String quote EmptyString) (skip_ws s);
            '(key, rest) ← read_string body;
            rest ← after ":" (skip_ws rest);
            '(v, rest) ← read_value fuel' rest;
            let acc := <[key := v]> acc in
            match after "," (skip_ws rest) with
            | Some rest => read_members n' acc rest
            | None => rest ← after "}" (skip_ws rest); Some (JObj acc, rest)
            end
        end in
      let fix read_elements (n : nat) (acc : list json) (s : string)
          : option (json * string) :=
        match n with
        | O => None
        | S n' =>
            '(v, rest) ← read_value fuel' s;
            let acc := (acc ++ [v])%list in
            match after "," (skip_ws rest) with
            | Some rest => read_elements n' acc rest
            | None => rest ← after "]" (skip_ws rest); Some (JArr acc, rest)
            end
        end in
      match after "null" s, after "true" s, after "false" s with
      | Some rest, _, _ => Some (JNull, rest)
      | _, Some rest, _ => Some (JBool true, rest)
      | _, _, Some rest => Some (JBool false, rest)
      | _, _, _ =>
          match after (String quote EmptyString) s, after "{" s, after "[" s with
          | Some body, _, _ =>
              '(str, rest) ← read_string body; Some (JStr str, rest)
          | _, Some body, _ =>
              match after "}" (skip_ws body) with
              | Some rest => Some (JObj ∅, rest)
              | None => read_members fuel' ∅ body
              end
          | _, _, Some body =>
              match after "]" (skip_ws body) with
              | Some rest => Some (JArr [], rest)
              | None => read_elements fuel' [] body
              end
          | _, _, _ =>
              '(n, rest) ← read_integer s; Some (JNum n, rest)
          end
      end
  end.

Definition sample_parse (text : string) : option json :=
  '(v, rest) ← read_value (S (String.length text)) text;
  match skip_ws rest with
  | EmptyString => Some v
  | _ => None
  end.

Definition sample_home : string := "/home/user".

(** A file system for the examples: a settings file with one key that the
    tool does not manage, a backup that is JSON and one that is not. *)
Definition sample_settings : gmap string json := {[ "theme" := JStr "dark" ]}.

Definition sample_fs : FS :=
  <[settingsPath sample_home := sample_stringify (JObj sample_settings)]>
  (<["/backups/good.json" := "{}"]>
  (<["/backups/bad.json" := "not json"]> ∅)).

Definition sample_iso : string := "2026-02-15T14:30:00.000Z".


(** The sample file system with a config file that holds [null]. *)
Definition sample_fs_null_config : FS :=
  <[configPath sample_home := "null"]> sample_fs.

(** ** Listing the backups *)

(** [s.endsWith(suffix)] *)
Fixpoint endsWith (suffix s : string) : bool :=
  String.eqb s suffix ||
  match s with
  | EmptyString => false
  | String _ s' => endsWith suffix s'
  end.

(** [s.replace(pattern, replacement)] with a string pattern: the first
    occurrence is replaced.  (The replacements of the source are empty, so
    the [$] patterns of a replacement string play no role.) *)
Fixpoint replace_first (pattern replacement s : string) : string :=
  match after pattern s with
  | Some rest => replacement +:+ rest
  | None =>
      match s with
      | EmptyString => EmptyString
      | String c s' => String c (replace_first pattern replacement s')
      end
  end.

Definition is_digit (c : ascii) : bool :=
  (48 <=? nat_of_ascii c)%nat && (nat_of_ascii c <=? 57)%nat.

(** [s] starts with the shape, in which [d] stands for a digit ([\d]) and
    every other character for itself. *)
Fixpoint starts_with_shape (shape s : string) : bool :=
  match shape, s with
  | EmptyString, _ => true
  | String p shape', String c s' =>
      (if Ascii.eqb p "d" then is_digit c else Ascii.eqb p c)
      && starts_with_shape shape' s'
  | String _ _, EmptyString => false
  end.

Fixpoint set_char (n : nat) (c : ascii) (s : string) : string :=
  match s, n with
  | EmptyString, _ => EmptyString
  | String _ s', O => String c s'
  | String x s', S n' => String x (set_char n' c s')
  end.

(** [s.replace(/^(\d{4})-(\d{2})-(\d{2})T(\d{2})-(\d{2})-(\d{2})/,
    '$1-$2-$3T$4:$5:$6')]: the two dashes of the time become colons. *)
Definition restore_time_colons (s : string) : string :=
  if starts_with_shape "dddd-dd-ddTdd-dd-dd" s
  then set_char 13 ":" (set_char 16 ":" s)
  else s.

(** The text from which [listBackups] makes the date of the backup named
    [f]: the argument of [new Date(...)]. *)
Definition backupDateText (f : string) : string :=
  restore_time_colons
    (replace_first ".json" "" (replace_first "settings-" "" f)).

(** An entry of the list: [path], [name] and [date] of the source.  The
    date is kept as the text given to [new Date]; the [Date] made from it
    is the platform's. *)
Record BackupEntry := {
  entry_path : string;
  entry_name : string;
  entry_date : string;
}.

(** The first segment of a relative path: the text before its first
    slash. *)
Fixpoint first_component (s : string) : string :=
  match s with
  | EmptyString => EmptyString
  | String c s' =>
      if Ascii.eqb c "/" then EmptyString else String c (first_component s')
  end.

(** The entry of the directory [dir] through which the path [p] is
    reached: the name of the file or directory at [p] when it lies
    directly in [dir], the name of the sub-directory of [dir] on the way
    when it lies deeper. *)
Definition entry_in_dir (dir p : string) : option string :=
  match after (dir +:+ "/") p with
  | Some rest =>
      let n := first_component rest in
      if String.eqb n "" then None else Some n
  | None => None
  end.

(** [readdirSync(dir)]: the names of the entries of [dir], each once, in
    no particular order.  The entries are the files and the directories
    directly in [dir].  The file map holds the files only, so the paths of
    the directories that exist when the call is made come beside it, in
    [directories]: an empty directory is an entry through its own path
    there, and a directory in which a file or a directory lies is an entry
    also when [directories] does not name it.  A directory [dir] that does
    not exist has nothing below it and gives no name. *)
Definition readdirSync (directories : list string) (dir : string)
  : M (list string) :=
  fun fs =>
    (Ok (remove_dups
           (omap (entry_in_dir dir) ((map_to_list fs).*1 ++ directories)%list)),
     fs).

(** There is a file or a directory at [p]. *)
Definition present (fs : FS) (directories : list string) (p : string) : Prop :=
  is_Some (fs !! p) \/ p ∈ directories.

(** [p] is an entry that exists: a file or a directory is at [p], or one
    lies below [p], which then is a directory. *)
Definition entry_exists (fs : FS) (directories : list string) (p : string)
  : Prop :=
  present fs directories p \/
  exists rest : string, present fs directories (join p rest).

(** [names.sort()]: ascending in the order of the character codes (of the
    bytes here, of the UTF-16 code units in JavaScript: the same order for
    ASCII names). *)
Definition sort (names : list string) : list string :=
  merge_sort String.le names.

Section Backups.

Variable homedir : string.

(** [listBackups]: the guard [existsSync(backupDir)] and the [catch] both
    return [[]], which is also what the listing of a directory without
    entries gives. *)
Definition listBackups (directories : list string) : M (list BackupEntry) :=
  try_catch
    (names ← readdirSync directories (backupDir homedir);
     mret (map (fun f => {| entry_path := join (backupDir homedir) f;
                            entry_name := f;
                            entry_date := backupDateText f |})
               (reverse
                  (sort
                     (filter (fun f => startsWith "settings-" f
                                       && endsWith ".json" f) names)))))
    (fun _ => mret []).

End Backups.

(** ** The debug log ([src/utils/logger.ts]) *)

(** A value caught by a [catch]: an [Error] with its name, message and
    stack, or another value with its [String(...)] text. *)
Inductive thrown : Type :=
  | ErrorObject (error_name error_message : string) (stack : option string)
  | OtherValue (text : string).

Definition appendFileSync (path data : string) : M unit :=
  fun fs =>
    (Ok (), <[path := match fs !! path with
                      | Some content => content +:+ data
                      | None => data
                      end]> fs).

Definition LOG_DIR (homedir : string) : string := join homedir ".ccs".
Definition LOG_FILE (homedir : string) : string :=
  join (LOG_DIR homedir) "debug.log".

(** [logger.logError(context, error)] at the instant [iso]. *)
Definition logError (homedir iso context : string) (error : thrown) : M unit :=
  try_catch
    (let timestamp := iso in
     let message := match error with
                    | ErrorObject _ m _ => m
                    | OtherValue text => text
                    end in
     let stack := match error with
                  | ErrorObject _ _ (Some s) => s
                  | ErrorObject _ _ None => ""
                  | OtherValue _ => ""
                  end in
     appendFileSync (LOG_FILE homedir)
       ("[" +:+ timestamp +:+ "] [" +:+ context +:+ "] " +:+ message
        +:+ newline
        +:+ (if String.eqb stack "" then "" else stack +:+ newline)))
    (fun _ => mret ()).

(** ** Validation of a credential ([src/lib/api-validator.ts]) *)

Record Request := {
  url : string;
  method : string;
  headers : list (string * string);
}.

Record Response := {
  status : Z;
  statusText : string;
}.

(** [response.ok]: the status is in the range 200-299. *)
Definition ok (response : Response) : bool :=
  (200 <=? status response)%Z && (status response <=? 299)%Z.

Record ValidationResult := {
  valid : bool;
  error : option string;
  message : option string;
}.

(** [validateApiKey].  What the network did is a parameter: [fetch] gives,
    for the request, the response that arrived or the value that the
    [await] threw (the abort after 15 s is an [Error] named
    [AbortError]). *)
Definition validateApiKey (fetch : Request -> Response + thrown)
    (homedir iso : string)
    (apiKey : string) (provider : Provider) (regionId : string)
  : M ValidationResult :=
  let url := getValidateUrl provider regionId in
  match fetch {| url := url; method := "GET";
                 headers := [("Authorization", "Bearer " +:+ apiKey);
                             ("Content-Type", "application/json")] |} with
  | inl response =>
      if (status response =? 401)%Z || (status response =? 403)%Z then
        mret {| valid := false; error := Some "invalid_api_key";
                message := Some "API Key is invalid or expired" |}
      else if ok response then
        mret {| valid := true; error := None; message := None |}
      else
        mret {| valid := false; error := Some "unknown_error";
                message := Some ("HTTP " +:+ pretty (status response) +:+ ": "
                                 +:+ statusText response) |}
  | inr err =>
      logError homedir iso "validateApiKey" err;;
      match err with
      | ErrorObject n m _ =>
          if String.eqb n "AbortError" then
            mret {| valid := false; error := Some "network_error";
                    message := Some "Request timeout (15s)" |}
          else
            mret {| valid := false; error := Some "network_error";
                    message := Some m |}
      | OtherValue _ =>
          mret {| valid := false; error := Some "network_error";
                  message := Some "Network connection failed" |}
      end
  end.

(** ** The boxes of the wizard ([src/lib/wizard.ts]) *)

(** The UTF-16 code units that the character starting with the byte [c]
    takes: a string of the source is held here in UTF-8, where a character
    of one to three bytes is one code unit, a character of four bytes is
    two, and the bytes that continue a character add none. *)
Definition code_units (c : ascii) : nat :=
  let n := nat_of_ascii c in
  if (n <? 128)%nat then 1%nat
  else if (n <? 192)%nat then 0%nat
  else if (n <? 240)%nat then 1%nat
  else 2%nat.

(** [s.length]: the number of UTF-16 code units of [s]. *)
Fixpoint utf16_length (s : string) : nat :=
  match s with
  | EmptyString => 0%nat
  | String c s' => (code_units c + utf16_length s')%nat
  end.

(** [s.repeat(count)]: [None] is the [RangeError] for a negative count. *)
Definition repeat_string (s : string) (count : Z) : option string :=
  if (count <? 0)%Z then None
  else Some (Nat.iter (Z.to_nat count) (String.append s) "").

Definition BOX_WIDTH : Z := 63.

Definition borderLine (l r fill : string) (w : Z) : option string :=
  line ← repeat_string fill (w - 2);
  Some (l +:+ line +:+ r).

Definition contentLine (text l r : string) (w : Z) : option string :=
  let padding := (w - 4 - Z.of_nat (utf16_length text))%Z in
  let padLeft := (padding / 2)%Z in
  let padRight := (padding - padLeft)%Z in
  leftPad ← repeat_string " " padLeft;
  rightPad ← repeat_string " " padRight;
  Some (l +:+ " " +:+ leftPad +:+ text +:+ rightPad +:+ " " +:+ r).

(** The ASCII art of the banner. *)
Definition banner_art : list string := [
  " _____                    _____                    _____          ";
  " /\    \                  /\    \                  /\    \         ";
  "/::\    \                /::\    \                /::\    \        ";
  "/::::\    \              /::::\    \              /::::\    \       ";
  "/::::::\    \            /::::::\    \            /::::::\    \      ";
  "/:::/\:::\    \          /:::/\:::\    \          /:::/\:::\    \     ";
  "/:::/  \:::\    \        /:::/  \:::\    \        /:::/__\:::\    \    ";
  "/:::/    \:::\    \      /:::/    \:::\    \       \:::\   \:::\    \   ";
  "/:::/    / \:::\    \    /:::/    / \:::\    \    __\:::\   \:::\    \  ";
  "/:::/    /   \:::\    \  /:::/    /   \:::\    \  /\   \:::\   \:::\    \ ";
  "/:::/____/     \:::\____\/:::/____/     \:::\____\/::\   \:::\   \:::\____\";
  "\:::\    \      \::/    /\:::\    \      \::/    /\:::\   \:::\   \::/    /";
  " \:::\    \      \/____/  \:::\    \      \/____/  \:::\   \:::\   \/____/ ";
  "  \:::\    \               \:::\    \               \:::\   \:::\    \     ";
  "   \:::\    \               \:::\    \               \:::\   \:::\____\    ";
  "    \:::\    \               \:::\    \               \:::\  /:::/    /    ";
  "     \:::\    \               \:::\    \               \:::\/:::/    /     ";
  "      \:::\    \               \:::\    \               \::::::/    /      ";
  "       \:::\____\               \:::\____\               \::::/    /       ";
  "        \::/    /                \::/    /                \::/    /        ";
  "         \/____/                  \/____/                  \/____/         "
].

(** The lines of [printBanner], with the subtitle that [i18n.t] gives;
    [None] when making a line throws. *)
Definition bannerLines (subtitle : string) : option (list string) :=
  let W := 65%Z in
  top ← borderLine "╔" "╗" "═" W;
  blank ← contentLine "" "║" "║" W;
  art ← mapM (fun a => contentLine a "║" "║" W) banner_art;
  blank' ← contentLine "" "║" "║" W;
  title ← contentLine "Claude Code Provider Switcher" "║" "║" W;
  sub ← contentLine subtitle "║" "║" W;
  bottom ← borderLine "╚" "╝" "═" W;
  Some ([top; blank] ++ art ++ [blank'; title; sub; bottom])%list.

(** [createBox(title)]: the texts given to [console.log], before their
    colouring, and whether making a line threw (the lines before it are
    already printed). *)
Definition createBox (title : string) : list string * bool :=
  match borderLine "╔" "╗" "═" BOX_WIDTH with
  | None => ([], true)
  | Some top =>
      match contentLine title "║" "║" BOX_WIDTH with
      | None => ([newline +:+ top], true)
      | Some middle =>
          match borderLine "╚" "╝" "═" BOX_WIDTH with
          | None => ([newline +:+ top; middle], true)
          | Some bottom => ([newline +:+ top; middle; bottom; ""], false)
          end
      end
  end.

(** [n] copies of [s] in a row. *)
Definition copies (n : nat) (s : string) : string :=
  Nat.iter n (String.append s) "".

(** [n] spaces. *)
Definition spaces (n : nat) : string := Nat.iter n (String.append " ") "".

(** Unfold the sequencing of a method down to the file system. *)
Ltac run_M :=
  unfold try_catch, existsSync, readFileSync, writeFileSync, copyFileSync,
    ensureDir, throw, lift, mbind, M_bind, mret, M_ret;
  cbv beta.

(** * Properties *)

(** ** Strings *)

Lemma append_nil (b : string) : "" +:+ b = b.
Proof. reflexivity. Qed.

Lemma append_cons (x : ascii) (a b : string) :
  String x a +:+ b = String x (a +:+ b).
Proof. reflexivity. Qed.

Lemma append_assoc (a b c : string) : (a +:+ b) +:+ c = a +:+ (b +:+ c).
Proof.
  induction a as [|x a IH]; [reflexivity|].
  rewrite !append_cons. now rewrite IH.
Qed.

Lemma prefix_append (p s : string) :
  String.prefix p s = true <-> exists post, s = p +:+ post.
Proof.
  revert s. induction p as [|c p IH]; intros s.
  - split; [intros _; now exists s | intros _; now destruct s].
  - destruct s as [|d s]; cbn [String.prefix].
    + split; [discriminate | intros [post H]; discriminate].
    + destruct (ascii_dec c d) as [->|Hne].
      * rewrite IH. split; intros [post H]; exists post;
          rewrite ?append_cons in *; congruence.
      * split; [discriminate |].
        intros [post H]. rewrite append_cons in H. congruence.
Qed.

Lemma includes_contains (sub s : string) :
  includes sub s = true <-> contains sub s.
Proof.
  induction s as [|c s IH].
  - cbn [includes]. rewrite orb_false_r, prefix_append. split.
    + intros [post H]. now exists "", post.
    + intros [[|x pre] [post H]]; [now exists post | discriminate].
  - cbn [includes]. rewrite orb_true_iff, prefix_append, IH. split.
    + intros [[post H] | [pre [post H]]].
      * now exists "", post.
      * exists (String c pre), post. rewrite append_cons. now rewrite H.
    + intros [[|x pre] [post H]].
      * left. now exists post.
      * right. exists pre, post. rewrite append_cons in H. congruence.
Qed.

Lemma includes_not_contains (sub s : string) :
  includes sub s = false <-> ~ contains sub s.
Proof.
  rewrite <- includes_contains. destruct (includes sub s); split; congruence.
Qed.

(** ** The two loops *)

Lemma managed_true (key : string) :
  managed key = true <-> key ∈ MANAGED_ENV_KEYS.
Proof. unfold managed. apply bool_decide_eq_true. Qed.

Lemma managed_false (key : string) :
  managed key = false <-> key ∉ MANAGED_ENV_KEYS.
Proof. unfold managed. apply bool_decide_eq_false. Qed.

Lemma proto_not_managed : managed "__proto__" = false.
Proof. reflexivity. Qed.

Lemma assign_lookup (o : gmap string json) (key : string) (value : json)
    (k : string) :
  assign o key value !! k =
    if decide (key = "__proto__") then o !! k
    else if decide (key = k) then Some value else o !! k.
Proof.
  unfold assign. destruct (decide (key = "__proto__")); [reflexivity|].
  apply lookup_insert.
Qed.

(** The copy loop keeps exactly the entries whose key is neither managed
    nor ["__proto__"]. *)
Lemma cleanedEnv_lookup (existingEnv : json) (k : string) :
  cleanedEnv existingEnv !! k =
    if managed k then None
    else if decide (k = "__proto__") then None
    else Object_entries existingEnv !! k.
Proof.
  unfold cleanedEnv. revert k.
  apply (map_fold_weak_ind
           (fun (r m : gmap string json) => forall k,
                r !! k = if managed k then None
                         else if decide (k = "__proto__") then None
                         else m !! k)).
  - intros k. rewrite lookup_empty. now repeat case_match.
  - intros i x m r Hi IH k.
    destruct (managed i) eqn:Hm.
    + rewrite IH. destruct (managed k) eqn:Hk; [reflexivity|].
      case_decide; [reflexivity|].
      rewrite lookup_insert_ne; [reflexivity | congruence].
    + rewrite assign_lookup, IH.
      destruct (decide (i = "__proto__")) as [->|Hp].
      * destruct (managed k); [reflexivity|].
        case_decide; [reflexivity|].
        rewrite lookup_insert_ne; [reflexivity | congruence].
      * destruct (decide (i = k)) as [->|Hik].
        -- rewrite Hm. rewrite decide_False by assumption.
           now rewrite lookup_insert_eq.
        -- rewrite lookup_insert_ne by assumption. reflexivity.
Qed.

Lemma cleanedEnv_managed (existingEnv : json) (k : string) :
  k ∈ MANAGED_ENV_KEYS -> cleanedEnv existingEnv !! k = None.
Proof.
  intros H. rewrite cleanedEnv_lookup.
  apply managed_true in H. now rewrite H.
Qed.

(** The override loop: an override wins over the base config, except that
    an override named ["__proto__"] is lost. *)
Lemma overrides_lookup (base : gmap string json) (overrides : gmap string string)
    (k : string) :
  map_fold (fun key value env => assign env key (JStr value)) base overrides !! k =
    if decide (k = "__proto__") then base !! k
    else match overrides !! k with
         | Some v => Some (JStr v)
         | None => base !! k
         end.
Proof.
  revert k.
  apply (map_fold_weak_ind
           (fun (r : gmap string json) (m : gmap string string) => forall k,
                r !! k = if decide (k = "__proto__") then base !! k
                         else match m !! k with
                              | Some v => Some (JStr v)
                              | None => base !! k
                              end)).
  - intros k. rewrite lookup_empty. now case_decide.
  - intros i x m r Hi IH k. rewrite assign_lookup, IH.
    destruct (decide (i = "__proto__")) as [->|Hp].
    + case_decide; [reflexivity|].
      rewrite lookup_insert_ne; [reflexivity | congruence].
    + destruct (decide (i = k)) as [->|Hik].
      * rewrite decide_False by assumption. now rewrite lookup_insert_eq.
      * now rewrite lookup_insert_ne by assumption.
Qed.

Lemma baseEnv_unmanaged (cleaned : gmap string json) (region : ProviderRegion)
    (apiKey k : string) :
  k ∉ MANAGED_ENV_KEYS -> baseEnv cleaned region apiKey !! k = cleaned !! k.
Proof.
  intros H. unfold baseEnv, MANAGED_ENV_KEYS in *.
  rewrite !lookup_insert_ne; [reflexivity | set_solver..].
Qed.

Lemma baseEnv_fresh (cleaned : gmap string json) (region : ProviderRegion)
    (apiKey k : string) :
  cleaned !! k = None ->
  baseEnv cleaned region apiKey !! k = baseEnv ∅ region apiKey !! k.
Proof.
  intros H. unfold baseEnv. rewrite !lookup_insert.
  repeat case_decide; try reflexivity. now rewrite H, lookup_empty.
Qed.

(** ** The merge *)

(** On a document that is an object the merge always succeeds, and this is
    the document it builds. *)
Lemma mergeSettings_object (provider : Provider) (region : ProviderRegion)
    (modelId apiKey : string) (d : gmap string json) :
  mergeSettings provider region modelId apiKey (JObj d) =
    Ok (JObj (<["model" := JStr (mapModelToSetting modelId (id provider))]>
             (<["env" := JObj (newEnv provider region modelId apiKey
                                 (cleanedEnv (orEmpty (d !! "env"))))]> d))).
Proof. reflexivity. Qed.

Lemma apply_config_object (provider : Provider) (region : ProviderRegion)
    (regionId modelId apiKey : string) (d : gmap string json) :
  findRegion provider regionId = Some region ->
  apply_config provider regionId modelId apiKey (JObj d) =
    Ok (JObj (<["model" := JStr (mapModelToSetting modelId (id provider))]>
             (<["env" := JObj (newEnv provider region modelId apiKey
                                 (cleanedEnv (orEmpty (d !! "env"))))]> d))).
Proof. intros H. unfold apply_config. now rewrite H. Qed.

Lemma newEnv_lookup (provider : Provider) (region : ProviderRegion)
    (modelId apiKey : string) (cleaned : gmap string json) (k : string) :
  newEnv provider region modelId apiKey cleaned !! k =
    if decide (k = "__proto__") then baseEnv cleaned region apiKey !! k
    else match getEnvOverrides provider modelId !! k with
         | Some v => Some (JStr v)
         | None => baseEnv cleaned region apiKey !! k
         end.
Proof. apply overrides_lookup. Qed.

(** The providers of the registry override managed keys only. *)
Lemma registry_overrides_managed (p : Provider) (modelId k : string) :
  p ∈ providers ->
  is_Some (getEnvOverrides p modelId !! k) ->
  k ∈ MANAGED_ENV_KEYS.
Proof.
  unfold providers. rewrite !elem_of_cons, elem_of_nil.
  intros [->|[->|[->|[->|[]]]]]; cbn [getEnvOverrides claudeProvider
    zhipuProvider minimaxProvider kimiProvider]; intros [v Hv];
    repeat (rewrite lookup_insert in Hv; case_decide;
            [subst k; apply managed_true; reflexivity|]);
    try (rewrite lookup_singleton in Hv; case_decide;
         [subst k; apply managed_true; reflexivity|]);
    try (rewrite lookup_empty in Hv); discriminate.
Qed.

(** What the merge keeps, for a provider whose overrides stay within the
    managed keys: every env entry whose key is neither managed nor
    ["__proto__"], and every top-level entry other than [env] and
    [model]. *)
Lemma apply_config_frame (provider : Provider) (region : ProviderRegion)
    (regionId modelId apiKey : string) (d : gmap string json) :
  (forall k, is_Some (getEnvOverrides provider modelId !! k) ->
             k ∈ MANAGED_ENV_KEYS) ->
  findRegion provider regionId = Some region ->
  exists d' env' : gmap string json,
    apply_config provider regionId modelId apiKey (JObj d) = Ok (JObj d') /\
    d' !! "env" = Some (JObj env') /\
    (forall k, k ∉ MANAGED_ENV_KEYS -> k <> "__proto__" ->
               env' !! k = Object_entries (orEmpty (d !! "env")) !! k) /\
    (forall k, k <> "env" -> k <> "model" -> d' !! k = d !! k).
Proof.
  intros Hov Hr. eexists _, _. split; [apply apply_config_object; exact Hr|].
  split; [rewrite lookup_insert_ne by discriminate; apply lookup_insert_eq|].
  split.
  - intros k Hk Hp. rewrite newEnv_lookup, decide_False by assumption.
    destruct (getEnvOverrides provider modelId !! k) as [v|] eqn:Hv.
    + exfalso. apply Hk, Hov. now exists v.
    + rewrite baseEnv_unmanaged, cleanedEnv_lookup by assumption.
      apply managed_false in Hk. rewrite Hk.
      now rewrite decide_False by assumption.
  - intros k He Hm. now rewrite !lookup_insert_ne by congruence.
Qed.

Lemma apply_config_frame_registry (provider : Provider)
    (region : ProviderRegion) (regionId modelId apiKey : string)
    (d : gmap string json) :
  provider ∈ providers ->
  findRegion provider regionId = Some region ->
  exists d' env' : gmap string json,
    apply_config provider regionId modelId apiKey (JObj d) = Ok (JObj d') /\
    d' !! "env" = Some (JObj env') /\
    (forall k, k ∉ MANAGED_ENV_KEYS -> k <> "__proto__" ->
               env' !! k = Object_entries (orEmpty (d !! "env")) !! k) /\
    (forall k, k <> "env" -> k <> "model" -> d' !! k = d !! k).
Proof.
  intros Hp. apply apply_config_frame.
  intros k. now apply registry_overrides_managed.
Qed.

(** C1.  The claim is that the merge keeps every env key outside the
    managed allowlist.  The key ["__proto__"] is outside the allowlist, yet
    the copy loop [cleanedEnv[key] = value] cannot create it: applying kimi
    to the document [{env: {__proto__: 'x'}}] gives an env without it. *)
Theorem apply_loses_proto_env_key :
  ("__proto__" ∉ MANAGED_ENV_KEYS) /\
  (exists d' env' : gmap string json,
    apply_config kimiProvider "global" "kimi-k2.5" "sk-test"
      (JObj {[ "env" := JObj {[ "__proto__" := JStr "x" ]} ]}) = Ok (JObj d') /\
    d' !! "env" = Some (JObj env') /\
    env' !! "__proto__" = None).
Proof.
  split; [apply managed_false; reflexivity|].
  eexists _, _. split; [reflexivity|].
  split; [rewrite lookup_insert_ne by discriminate; apply lookup_insert_eq|].
  vm_compute. reflexivity.
Qed.

(** C2.  Whatever the current document holds, a managed key of the new
    env has the value of the provider's override for the model when there
    is one, and otherwise the value of the base config (credential, base
    URL of the region, timeout, disable flag); nothing of the old env
    reaches it. *)
Theorem apply_replaces_managed_keys (provider : Provider)
    (region : ProviderRegion) (regionId modelId apiKey : string)
    (d : gmap string json) :
  findRegion provider regionId = Some region ->
  exists d' env' : gmap string json,
    apply_config provider regionId modelId apiKey (JObj d) = Ok (JObj d') /\
    d' !! "env" = Some (JObj env') /\
    forall K, K ∈ MANAGED_ENV_KEYS ->
      env' !! K =
        match getEnvOverrides provider modelId !! K with
        | Some v => Some (JStr v)
        | None =>
            ({[ "ANTHROPIC_AUTH_TOKEN" := JStr apiKey;
                "ANTHROPIC_BASE_URL" := JStr (baseUrl region);
                "API_TIMEOUT_MS" := JStr "3000000";
                "CLAUDE_CODE_DISABLE_NONESSENTIAL_TRAFFIC" := JNum 1 ]}
             : gmap string json) !! K
        end.
Proof.
  intros Hr. eexists _, _. split; [apply apply_config_object; exact Hr|].
  split; [rewrite lookup_insert_ne by discriminate; apply lookup_insert_eq|].
  intros K HK. rewrite newEnv_lookup.
  assert (K <> "__proto__") as Hp.
  { intros ->. apply managed_true in HK. discriminate. }
  rewrite decide_False by assumption.
  destruct (getEnvOverrides provider modelId !! K); [reflexivity|].
  rewrite baseEnv_fresh by now apply cleanedEnv_managed.
  unfold baseEnv. rewrite !lookup_insert.
  repeat case_decide; try reflexivity; subst; try congruence.
  all: rewrite ?lookup_insert_ne, ?lookup_insert_eq, ?lookup_singleton_ne,
         ?lookup_singleton_eq, ?lookup_empty by congruence; try reflexivity.
Qed.

(** C9.  The kimi scenario on the empty document. *)
Theorem kimi_scenario :
  exists d' env' : gmap string json,
    apply_config kimiProvider "global" "kimi-k2.5" "sk-test" (JObj ∅)
      = Ok (JObj d') /\
    d' !! "env" = Some (JObj env') /\
    env' !! "ANTHROPIC_BASE_URL" = Some (JStr "https://api.moonshot.ai/anthropic") /\
    env' !! "ANTHROPIC_MODEL" = Some (JStr "kimi-k2.5") /\
    d' !! "model" = Some (JStr "kimi-k2.5").
Proof.
  eexists _, _. split; [reflexivity|].
  split; [rewrite lookup_insert_ne by discriminate; apply lookup_insert_eq|].
  repeat split; vm_compute; reflexivity.
Qed.

(** ** The model setting *)

Lemma mapModelToSetting_other (modelId providerId : string) :
  providerId <> "claude" -> mapModelToSetting modelId providerId = modelId.
Proof.
  intros H. unfold mapModelToSetting.
  apply String.eqb_neq in H. now rewrite H.
Qed.

Lemma mapModelToSetting_claude (modelId : string) :
  (contains "opus" modelId -> mapModelToSetting modelId "claude" = "opus") /\
  (~ contains "opus" modelId -> contains "sonnet" modelId ->
   mapModelToSetting modelId "claude" = "sonnet") /\
  (~ contains "opus" modelId -> ~ contains "sonnet" modelId ->
   contains "haiku" modelId -> mapModelToSetting modelId "claude" = "haiku") /\
  (~ contains "opus" modelId -> ~ contains "sonnet" modelId ->
   ~ contains "haiku" modelId -> mapModelToSetting modelId "claude" = modelId).
Proof.
  unfold mapModelToSetting. rewrite String.eqb_refl.
  repeat split; intros;
    repeat match goal with
           | H : contains _ _ |- _ => apply includes_contains in H; rewrite H
           | H : ~ contains _ _ |- _ =>
               apply includes_not_contains in H; rewrite H
           end; reflexivity.
Qed.

(** The claim of C6 as it is written fails on a model id that contains
    two of the three names: this one contains "sonnet" and maps to
    "opus". *)
Lemma sonnet_id_mapped_to_opus :
  contains "sonnet" "opus-sonnet" /\
  mapModelToSetting "opus-sonnet" "claude" = "opus" /\
  mapModelToSetting "opus-sonnet" "claude" <> "sonnet".
Proof.
  split; [now exists "opus-", ""|].
  split; [reflexivity | discriminate].
Qed.

(** C6, amended.  The model setting of the document that apply produces:
    the raw model id for a provider other than 'claude'; for 'claude' the
    first of "opus", "sonnet", "haiku", in this order, that occurs in the
    model id.  With the claude provider of the registry,
    [env.ANTHROPIC_MODEL] is the full model id. *)
Theorem model_setting_by_provider (provider : Provider)
    (region : ProviderRegion) (regionId modelId apiKey : string)
    (d : gmap string json) :
  findRegion provider regionId = Some region ->
  exists d' : gmap string json,
    apply_config provider regionId modelId apiKey (JObj d) = Ok (JObj d') /\
    (id provider <> "claude" -> d' !! "model" = Some (JStr modelId)) /\
    (id provider = "claude" ->
       (contains "opus" modelId -> d' !! "model" = Some (JStr "opus")) /\
       (~ contains "opus" modelId -> contains "sonnet" modelId ->
        d' !! "model" = Some (JStr "sonnet")) /\
       (~ contains "opus" modelId -> ~ contains "sonnet" modelId ->
        contains "haiku" modelId -> d' !! "model" = Some (JStr "haiku"))) /\
    (provider = claudeProvider ->
       exists env' : gmap string json,
         d' !! "env" = Some (JObj env') /\
         env' !! "ANTHROPIC_MODEL" = Some (JStr modelId)).
Proof.
  intros Hr. eexists. split; [apply apply_config_object; exact Hr|].
  rewrite lookup_insert_eq. split; [|split].
  - intros H. now rewrite mapModelToSetting_other.
  - intros ->.
    destruct (mapModelToSetting_claude modelId) as (H1 & H2 & H3 & _).
    repeat split; intros.
    + now rewrite H1.
    + now rewrite H2.
    + now rewrite H3.
  - intros ->. eexists. split.
    + rewrite lookup_insert_ne by discriminate. apply lookup_insert_eq.
    + rewrite newEnv_lookup. cbn [getEnvOverrides claudeProvider].
      rewrite decide_False by discriminate.
      now rewrite lookup_singleton_eq.
Qed.

Lemma model_setting_by_provider_witness :
  findRegion claudeProvider "global" =
    Some {| region_id := "global"; region_name := "Global";
            baseUrl := "https://api.anthropic.com";
            apiKeyUrl := "https://console.anthropic.com/settings/keys" |} /\
  exists d' : gmap string json,
    apply_config claudeProvider "global" "claude-opus-4-5-20251120" "sk-test"
      (JObj ∅) = Ok (JObj d') /\
    d' !! "model" = Some (JStr "opus").
Proof.
  split; [reflexivity|].
  destruct (model_setting_by_provider claudeProvider _ "global"
              "claude-opus-4-5-20251120" "sk-test" ∅ eq_refl)
    as (d' & Hd & _ & Hc & _).
  exists d'. split; [exact Hd|].
  apply Hc; [reflexivity|].
  now exists "claude-", "-4-5-20251120".
Defined.

(** ** Unload after apply *)

(** On the document that apply produced, unload is not the early return:
    it saves a document made of the cleaned env alone, or [{}] when the
    cleaned env is empty. *)
Lemma unload_merged (provider : Provider) (region : ProviderRegion)
    (modelId apiKey : string) (d : gmap string json) :
  (merged ← mergeSettings provider region modelId apiKey (JObj d);
   unload merged) =
    let env' := newEnv provider region modelId apiKey
                  (cleanedEnv (orEmpty (d !! "env"))) in
    Ok (JObj (if bool_decide (0 < size (cleanedEnv (JObj env')))
              then {[ "env" := JObj (cleanedEnv (JObj env')) ]}
              else ∅)).
Proof.
  rewrite mergeSettings_object. cbn [mbind Result_bind].
  unfold unload, unloadSettings. cbn [getProp Object_entries].
  rewrite (lookup_insert_ne _ "model" "env") by discriminate.
  rewrite !lookup_insert_eq.
  cbn [mbind Result_bind truthy_opt truthy negb andb orEmpty mret Result_ret].
  case_bool_decide; reflexivity.
Qed.

(** The part of the round trip that holds: for a provider whose overrides
    stay within the managed keys, an env entry of the original document
    whose key is neither managed nor ["__proto__"] is in the env of the
    document after apply and unload; that document has no managed env key
    and no top-level key but [env]. *)
Lemma unload_after_apply_env (provider : Provider) (region : ProviderRegion)
    (regionId modelId apiKey : string) (d : gmap string json) :
  (forall k, is_Some (getEnvOverrides provider modelId !! k) ->
             k ∈ MANAGED_ENV_KEYS) ->
  findRegion provider regionId = Some region ->
  exists d'' : gmap string json,
    (merged ← apply_config provider regionId modelId apiKey (JObj d);
     unload merged) = Ok (JObj d'') /\
    (forall k v, k ∉ MANAGED_ENV_KEYS -> k <> "__proto__" ->
       Object_entries (orEmpty (d !! "env")) !! k = Some v ->
       exists env'' : gmap string json,
         d'' !! "env" = Some (JObj env'') /\ env'' !! k = Some v) /\
    (forall env'' K, d'' !! "env" = Some (JObj env'') ->
       K ∈ MANAGED_ENV_KEYS -> env'' !! K = None) /\
    (forall k, k <> "env" -> d'' !! k = None).
Proof.
  intros Hov Hr. unfold apply_config. rewrite Hr, unload_merged. cbv zeta.
  set (env' := newEnv provider region modelId apiKey _).
  assert (forall k v, k ∉ MANAGED_ENV_KEYS -> k <> "__proto__" ->
            Object_entries (orEmpty (d !! "env")) !! k = Some v ->
            cleanedEnv (JObj env') !! k = Some v) as Hkeep.
  { intros k v Hk Hp Hv. rewrite cleanedEnv_lookup.
    pose proof Hk as Hk'. apply managed_false in Hk'. rewrite Hk'.
    rewrite decide_False by assumption. cbn [Object_entries]. subst env'.
    rewrite newEnv_lookup, decide_False by assumption.
    destruct (getEnvOverrides provider modelId !! k) as [w|] eqn:Hw.
    - exfalso. apply Hk, Hov. now exists w.
    - rewrite baseEnv_unmanaged, cleanedEnv_lookup, Hk' by assumption.
      now rewrite decide_False by assumption. }
  eexists. split; [reflexivity|]. split; [|split].
  - intros k v Hk Hp Hv. specialize (Hkeep k v Hk Hp Hv).
    rewrite bool_decide_eq_true_2.
    + eexists. split; [apply lookup_singleton_eq | exact Hkeep].
    + destruct (decide (size (cleanedEnv (JObj env')) = 0)) as [Hz|Hz]; [|lia].
      apply map_size_empty_iff in Hz. rewrite Hz, lookup_empty in Hkeep.
      discriminate.
  - intros env'' K He HK. case_bool_decide.
    + rewrite lookup_singleton_eq in He.
      assert (env'' = cleanedEnv (JObj env')) as -> by congruence.
      now apply cleanedEnv_managed.
    + rewrite lookup_empty in He. discriminate.
  - intros k Hk. case_bool_decide.
    + now rewrite lookup_singleton_ne by congruence.
    + apply lookup_empty.
Qed.

(** C3.  The claim is that apply followed by unload gives back the
    top-level keys of the original document.  [unloadProviderConfig]
    builds the document it saves from [{}], while [loadProviderConfig]
    spreads the current settings: after applying kimi to [{theme: 'dark'}]
    and unloading, the document is [{}]. *)
Theorem unload_after_apply_loses_top_level :
  (merged ← apply_config kimiProvider "global" "kimi-k2.5" "sk-test"
              (JObj {[ "theme" := JStr "dark" ]});
   unload merged) = Ok (JObj ∅).
Proof. vm_compute. reflexivity. Qed.

(** ** Unknown regions *)

Lemma findRegion_None (provider : Provider) (regionId : string) :
  findRegion provider regionId = None <->
  forall r, r ∈ regions provider -> region_id r <> regionId.
Proof.
  unfold findRegion. induction (regions provider) as [|r l IH]; cbn [find].
  - split; [intros _ r Hr; inversion Hr | reflexivity].
  - destruct (String.eqb_spec (region_id r) regionId) as [He|Hne].
    + split; [discriminate|]. intros H. exfalso.
      apply (H r); [left | exact He].
    + rewrite IH. split.
      * intros H r' Hr'. apply elem_of_cons in Hr' as [->|Hr']; auto.
      * intros H r' Hr'. apply H. now right.
Qed.

Lemma findRegion_Some (provider : Provider) (regionId : string) :
  (exists r, r ∈ regions provider /\ region_id r = regionId) ->
  exists region, findRegion provider regionId = Some region /\
                 region ∈ regions provider /\ region_id region = regionId.
Proof.
  intros (r & Hr & Hid).
  destruct (findRegion provider regionId) as [region|] eqn:Hf.
  - exists region. split; [reflexivity|]. unfold findRegion in Hf.
    revert Hf. clear. induction (regions provider) as [|r l IH]; cbn [find].
    + discriminate.
    + destruct (String.eqb_spec (region_id r) regionId) as [He|Hne].
      * intros [= <-]. split; [left | exact He].
      * intros H. destruct (IH H). split; [now right | assumption].
  - exfalso. apply (proj1 (findRegion_None provider regionId) Hf r Hr Hid).
Qed.

Lemma mergeSettings_not_Error (provider : Provider) (region : ProviderRegion)
    (modelId apiKey : string) (settings : json) (message : string) :
  mergeSettings provider region modelId apiKey settings <> Throw (Error message).
Proof. destruct settings; discriminate. Qed.

(** ** Detection after apply *)

(** The claim of C4 as it is written fails for the empty credential:
    [detectCurrentConfig] returns the all-undefined result when
    [ANTHROPIC_AUTH_TOKEN] is falsy. *)
Lemma detect_after_apply_empty_credential :
  claudeProvider ∈ providers /\
  exists cfg : DetectedConfig,
    (merged ← apply_config claudeProvider "global" "claude-opus-4-5-20251120" ""
                (JObj ∅);
     detect merged) = Ok cfg /\
    detected_provider cfg = None /\
    detected_regionId cfg = None.
Proof.
  split; [left|].
  exists nothing_detected. split; [vm_compute; reflexivity|].
  split; reflexivity.
Qed.

(** C4, amended.  For every provider of the registry, every region of
    it, every model id and every credential that is not the empty string,
    detection on the document that apply makes from the empty document
    finds that provider and that region. *)
Theorem detect_after_apply (P : Provider) (R : ProviderRegion)
    (modelId apiKey : string) :
  P ∈ providers ->
  R ∈ regions P ->
  apiKey <> "" ->
  exists (cfg : DetectedConfig) (p : Provider),
    (merged ← apply_config P (region_id R) modelId apiKey (JObj ∅);
     detect merged) = Ok cfg /\
    detected_provider cfg = Some p /\
    id p = id P /\
    detected_regionId cfg = Some (region_id R).
Proof.
  intros HP HR Hk.
  destruct apiKey as [|c apiKey]; [congruence|]. clear Hk.
  unfold providers in HP.
  repeat (apply elem_of_cons in HP as [->|HP]); [..|inversion HP];
    cbn [regions claudeProvider zhipuProvider minimaxProvider kimiProvider] in HR;
    repeat (apply elem_of_cons in HR as [->|HR]); try (now inversion HR);
    (eexists _, _; split; [vm_compute; reflexivity|];
     repeat split; reflexivity).
Qed.

Lemma detect_after_apply_witness :
  kimiProvider ∈ providers /\
  {| region_id := "global"; region_name := "Global";
     baseUrl := "https://api.moonshot.ai/anthropic";
     apiKeyUrl := "https://platform.moonshot.ai/console/api-keys" |}
    ∈ regions kimiProvider /\
  "sk-test" <> "" /\
  exists (cfg : DetectedConfig) (p : Provider),
    (merged ← apply_config kimiProvider "global" "kimi-k2.5" "sk-test" (JObj ∅);
     detect merged) = Ok cfg /\
    detected_provider cfg = Some p /\
    id p = "kimi" /\
    detected_regionId cfg = Some "global".
Proof.
  assert (kimiProvider ∈ providers) as HP
    by (do 3 right; left).
  assert ({| region_id := "global"; region_name := "Global";
             baseUrl := "https://api.moonshot.ai/anthropic";
             apiKeyUrl := "https://platform.moonshot.ai/console/api-keys" |}
            ∈ regions kimiProvider) as HR by left.
  assert ("sk-test" <> "") as Hk by discriminate.
  split; [exact HP|]. split; [exact HR|]. split; [exact Hk|].
  exact (detect_after_apply kimiProvider _ "kimi-k2.5" "sk-test" HP HR Hk).
Defined.

(** ** The manager on the file system *)

Section ManagerProperties.

Context (JSON_parse : string -> option json)
        (JSON_stringify : json -> string)
        (homedir : string).

Local Abbreviation settings_path := (settingsPath homedir).
Local Abbreviation config_path := (configPath homedir).
Local Abbreviation backup_path := (backupPath homedir).

(** The three kinds of files of the manager have different paths. *)
Lemma settings_not_backup (iso : string) : settings_path <> backup_path iso.
Proof.
  unfold settingsPath, backupPath, backupDir, join.
  rewrite !append_assoc. intros H. apply (inj (String.append homedir)) in H.
  rewrite !append_cons in H. discriminate.
Qed.

Lemma settings_not_config : settings_path <> config_path.
Proof.
  unfold settingsPath, configPath, join.
  rewrite !append_assoc. intros H. apply (inj (String.append homedir)) in H.
  rewrite !append_cons in H. discriminate.
Qed.

Lemma config_not_backup (iso : string) : config_path <> backup_path iso.
Proof.
  unfold configPath, backupPath, backupDir, join.
  rewrite !append_assoc. intros H. apply (inj (String.append homedir)) in H.
  rewrite !append_cons in H. discriminate.
Qed.

(** Reading a document never throws and changes no file; what it returns
    depends on the file at the path alone. *)
Lemma readDocument_run (path : string) (fs : FS) :
  readDocument JSON_parse path fs =
    (Ok match fs !! path with
        | Some text =>
            match JSON_parse text with
            | Some v => v
            | None => JObj ∅
            end
        | None => JObj ∅
        end, fs).
Proof.
  unfold readDocument, parse. run_M.
  destruct (fs !! path) as [text|] eqn:Hp.
  - rewrite bool_decide_eq_true_2 by (now exists text). rewrite Hp.
    destruct (JSON_parse text); reflexivity.
  - rewrite bool_decide_eq_false_2 by (intros [x Hx]; discriminate).
    reflexivity.
Qed.

Lemma readDocument_frame (path : string) (fs fs' : FS) (v : json) :
  fs' !! path = fs !! path ->
  readDocument JSON_parse path fs = (Ok v, fs) ->
  readDocument JSON_parse path fs' = (Ok v, fs').
Proof.
  rewrite !readDocument_run. intros -> H. congruence.
Qed.

(** A backup is a copy of the settings file, or [{}] when there is none,
    at the path made from the time. *)
Lemma createBackup_run (iso : string) (fs : FS) :
  createBackup homedir iso fs =
    (Ok (backup_path iso),
     <[backup_path iso := match fs !! settings_path with
                          | Some content => content
                          | None => "{}"
                          end]> fs).
Proof.
  unfold createBackup. run_M.
  destruct (fs !! settings_path) as [content|] eqn:Hs.
  - rewrite bool_decide_eq_true_2 by (now exists content). now rewrite Hs.
  - rewrite bool_decide_eq_false_2 by (intros [x Hx]; discriminate).
    reflexivity.
Qed.

(** Onboarding on a config document that is not [null]: the flag is
    written unless it is already truthy. *)
Lemma ensureOnboarding_run (fs : FS) (config : json) :
  getConfig JSON_parse homedir fs = (Ok config, fs) ->
  config <> JNull ->
  ensureOnboarding JSON_parse JSON_stringify homedir fs =
    (Ok (),
     if truthy_opt (Object_entries config !! "hasCompletedOnboarding") then fs
     else <[config_path :=
              JSON_stringify
                (JObj (<["hasCompletedOnboarding" := JBool true]>
                         (Object_entries config)))]> fs).
Proof.
  intros Hc Hn. unfold ensureOnboarding, saveConfig. run_M. rewrite Hc.
  assert (getProp config "hasCompletedOnboarding" =
            Ok (Object_entries config !! "hasCompletedOnboarding")) as ->
    by (destruct config; first [reflexivity | congruence]).
  destruct (truthy_opt _); reflexivity.
Qed.

(** Onboarding in general: it returns or throws a [TypeError] (config
    document [null]), and it does not touch the settings file. *)
Lemma ensureOnboarding_settings (fs : FS) :
  exists (r : Result unit) (fs' : FS),
    ensureOnboarding JSON_parse JSON_stringify homedir fs = (r, fs') /\
    fs' !! settings_path = fs !! settings_path /\
    (r = Ok () \/ r = Throw TypeError).
Proof.
  pose proof (readDocument_run config_path fs) as Hc.
  set (config := match fs !! config_path with Some _ => _ | None => _ end) in Hc.
  clearbody config.
  assert (config = JNull \/ config <> JNull) as [Hn|Hn]
    by (destruct config; first [left; reflexivity | right; discriminate]).
  - exists (Throw TypeError), fs. unfold ensureOnboarding, getConfig. run_M.
    rewrite Hc, Hn. auto.
  - rewrite (ensureOnboarding_run fs config Hc Hn).
    eexists _, _. split; [reflexivity|]. split; [|now left].
    destruct (truthy_opt _); [reflexivity|].
    apply lookup_insert_ne. intros H. now apply settings_not_config.
Qed.

(** C5.  [restoreBackup] throws the error "Backup file not found" when
    there is no file at the path; it throws the [SyntaxError] of
    [JSON.parse] when the content of the file is not JSON; otherwise the
    settings file becomes a copy of the backup, whatever it held before,
    and no other file changes. *)
Theorem restoreBackup_spec (path : string) (fs : FS) :
  (fs !! path = None ->
   restoreBackup JSON_parse homedir path fs =
     (Throw (Error ("Backup file not found: " +:+ path)), fs)) /\
  (forall content, fs !! path = Some content ->
   JSON_parse content = None ->
   restoreBackup JSON_parse homedir path fs = (Throw SyntaxError, fs)) /\
  (forall content v, fs !! path = Some content ->
   JSON_parse content = Some v ->
   restoreBackup JSON_parse homedir path fs =
     (Ok (), <[settings_path := content]> fs)).
Proof.
  unfold restoreBackup, parse. run_M. repeat split.
  - intros Hp. rewrite Hp.
    rewrite bool_decide_eq_false_2 by (intros [x Hx]; discriminate).
    reflexivity.
  - intros content Hp Hj. rewrite Hp.
    rewrite bool_decide_eq_true_2 by (now exists content).
    cbv beta iota. rewrite Hp. cbv beta iota. now rewrite Hj.
  - intros content v Hp Hj. rewrite Hp.
    rewrite bool_decide_eq_true_2 by (now exists content).
    cbv beta iota. rewrite Hp. cbv beta iota. rewrite Hj.
    cbv beta iota. now rewrite Hp.
Qed.


(** What [loadProviderConfig] has done when it reaches the region check. *)
Lemma loadProviderConfig_unknown_region (provider : Provider)
    (regionId modelId apiKey iso : string) (fs : FS) :
  findRegion provider regionId = None ->
  exists (e : exn) (fs' : FS),
    loadProviderConfig JSON_parse JSON_stringify homedir
      provider regionId modelId apiKey iso fs = (Throw e, fs') /\
    fs' !! settings_path = fs !! settings_path.
Proof.
  intros Hf. unfold loadProviderConfig, mbind at 1, M_bind at 1.
  rewrite createBackup_run. unfold mbind at 1, M_bind at 1.
  destruct (ensureOnboarding_settings
              (<[backup_path iso := match fs !! settings_path with
                                    | Some content => content
                                    | None => "{}"
                                    end]> fs))
    as (r & fs' & -> & Hs & Hr).
  rewrite lookup_insert_ne in Hs
    by (intros H; now apply (settings_not_backup iso)).
  destruct Hr as [->| ->].
  - rewrite Hf. now eexists _, _.
  - now eexists _, _.
Qed.

Lemma loadProviderConfig_known_region (provider : Provider)
    (region : ProviderRegion) (regionId modelId apiKey iso : string)
    (fs : FS) (message : string) :
  findRegion provider regionId = Some region ->
  (loadProviderConfig JSON_parse JSON_stringify homedir
     provider regionId modelId apiKey iso fs).1 <> Throw (Error message).
Proof.
  intros Hf. unfold loadProviderConfig, mbind at 1, M_bind at 1.
  rewrite createBackup_run. unfold mbind at 1, M_bind at 1.
  destruct (ensureOnboarding_settings
              (<[backup_path iso := match fs !! settings_path with
                                    | Some content => content
                                    | None => "{}"
                                    end]> fs))
    as (r & fs' & -> & _ & [->| ->]); [|discriminate].
  rewrite Hf. unfold getSettings, mbind at 1, M_bind at 1.
  rewrite readDocument_run. unfold lift, mbind at 1, M_bind at 1.
  destruct (mergeSettings _ _ _ _ _) as [merged|e] eqn:Hm.
  - discriminate.
  - cbn [fst]. intros [= ->]. now apply mergeSettings_not_Error in Hm.
Qed.

(** C8.  When no region of the provider has the id, apply throws the
    error "Unknown region: <id>" on every document, and
    [loadProviderConfig] ends in a throw with the settings file as it was;
    when a region has the id, neither of them throws that error. *)
Theorem unknown_region_error (provider : Provider)
    (regionId modelId apiKey : string) :
  ((forall r, r ∈ regions provider -> region_id r <> regionId) ->
   (forall D, apply_config provider regionId modelId apiKey D =
                Throw (Error ("Unknown region: " +:+ regionId))) /\
   (forall iso fs, exists (e : exn) (fs' : FS),
      loadProviderConfig JSON_parse JSON_stringify homedir
        provider regionId modelId apiKey iso fs = (Throw e, fs') /\
      fs' !! settings_path = fs !! settings_path)) /\
  ((exists r, r ∈ regions provider /\ region_id r = regionId) ->
   (forall D, apply_config provider regionId modelId apiKey D <>
                Throw (Error ("Unknown region: " +:+ regionId))) /\
   (forall iso fs,
      (loadProviderConfig JSON_parse JSON_stringify homedir
         provider regionId modelId apiKey iso fs).1 <>
        Throw (Error ("Unknown region: " +:+ regionId)))).
Proof.
  split.
  - intros Hno. apply findRegion_None in Hno. split.
    + intros D. unfold apply_config. now rewrite Hno.
    + intros iso fs. now apply loadProviderConfig_unknown_region.
  - intros Hyes. apply findRegion_Some in Hyes as (region & Hf & _). split.
    + intros D. unfold apply_config. rewrite Hf.
      apply mergeSettings_not_Error.
    + intros iso fs. now apply (loadProviderConfig_known_region _ region).
Qed.

(** C10, amended.  With a region id that the provider does not have, and
    a config document that is not [null], [loadProviderConfig] throws
    "Unknown region: <id>" and leaves a file system in which the settings
    file is what it was, the backup of the settings file exists, and the
    config file has the onboarding flag: it was truthy already and the
    file is untouched, or the file now holds the config document with
    [hasCompletedOnboarding: true]. *)
Theorem unknown_region_side_effects (provider : Provider)
    (regionId modelId apiKey iso : string) (fs : FS) (config : json) :
  (forall r, r ∈ regions provider -> region_id r <> regionId) ->
  getConfig JSON_parse homedir fs = (Ok config, fs) ->
  config <> JNull ->
  exists fs' : FS,
    loadProviderConfig JSON_parse JSON_stringify homedir
      provider regionId modelId apiKey iso fs =
      (Throw (Error ("Unknown region: " +:+ regionId)), fs') /\
    fs' !! settings_path = fs !! settings_path /\
    fs' !! backup_path iso = Some match fs !! settings_path with
                                  | Some content => content
                                  | None => "{}"
                                  end /\
    fs' !! config_path =
      if truthy_opt (Object_entries config !! "hasCompletedOnboarding")
      then fs !! config_path
      else Some (JSON_stringify
                   (JObj (<["hasCompletedOnboarding" := JBool true]>
                            (Object_entries config)))).
Proof.
  intros Hno Hc Hn. apply findRegion_None in Hno.
  set (content := match fs !! settings_path with
                  | Some content => content
                  | None => "{}"
                  end).
  assert (getConfig JSON_parse homedir (<[backup_path iso := content]> fs) =
            (Ok config, <[backup_path iso := content]> fs)) as Hc'.
  { unfold getConfig in *. apply (readDocument_frame _ fs); [|exact Hc].
    apply lookup_insert_ne. intros H. now apply (config_not_backup iso). }
  eexists. split.
  - unfold loadProviderConfig, mbind at 1, M_bind at 1.
    rewrite createBackup_run. fold content. unfold mbind at 1, M_bind at 1.
    rewrite (ensureOnboarding_run _ config Hc' Hn). rewrite Hno. reflexivity.
  - destruct (truthy_opt _).
    + repeat split.
      * apply lookup_insert_ne. intros H. now apply (settings_not_backup iso).
      * apply lookup_insert_eq.
      * apply lookup_insert_ne. intros H. now apply (config_not_backup iso).
    + repeat split.
      * rewrite !lookup_insert_ne; [reflexivity| |].
        -- intros H. now apply (settings_not_backup iso).
        -- intros H. now apply settings_not_config.
      * rewrite lookup_insert_ne; [apply lookup_insert_eq|].
        apply config_not_backup.
      * apply lookup_insert_eq.
Qed.

(** The three methods in terms of the computations on documents: what
    [loadProviderConfig], [unloadProviderConfig] and [detectCurrentConfig]
    do to the files is the backup, the onboarding flag, and the saving of
    the document that [apply_config], resp. [unloadSettings], computes from
    the settings read. *)
Lemma loadProviderConfig_run (provider : Provider)
    (regionId modelId apiKey iso : string) (fs : FS) (config settings : json) :
  getConfig JSON_parse homedir fs = (Ok config, fs) ->
  config <> JNull ->
  getSettings JSON_parse homedir fs = (Ok settings, fs) ->
  loadProviderConfig JSON_parse JSON_stringify homedir
    provider regionId modelId apiKey iso fs =
    let fs1 := <[backup_path iso := match fs !! settings_path with
                                    | Some content => content
                                    | None => "{}"
                                    end]> fs in
    let fs2 :=
      if truthy_opt (Object_entries config !! "hasCompletedOnboarding") then fs1
      else <[config_path :=
               JSON_stringify
                 (JObj (<["hasCompletedOnboarding" := JBool true]>
                          (Object_entries config)))]> fs1 in
    match apply_config provider regionId modelId apiKey settings with
    | Ok merged => (Ok (), <[settings_path := JSON_stringify merged]> fs2)
    | Throw e => (Throw e, fs2)
    end.
Proof.
  intros Hc Hn Hs. cbv zeta.
  set (fs1 := <[backup_path iso := _]> fs).
  assert (getConfig JSON_parse homedir fs1 = (Ok config, fs1)) as Hc'.
  { unfold getConfig in *. apply (readDocument_frame _ fs); [|exact Hc].
    apply lookup_insert_ne. intros H. now apply (config_not_backup iso). }
  unfold loadProviderConfig, mbind at 1, M_bind at 1.
  rewrite createBackup_run. fold fs1. unfold mbind at 1, M_bind at 1.
  rewrite (ensureOnboarding_run _ config Hc' Hn).
  set (fs2 := if truthy_opt _ then fs1 else _).
  assert (getSettings JSON_parse homedir fs2 = (Ok settings, fs2)) as Hs'.
  { unfold getSettings in *. apply (readDocument_frame _ fs); [|exact Hs].
    subst fs2 fs1. destruct (truthy_opt _).
    - apply lookup_insert_ne. intros H. now apply (settings_not_backup iso).
    - rewrite !lookup_insert_ne; [reflexivity| |].
      + intros H. now apply (settings_not_backup iso).
      + intros H. now apply settings_not_config. }
  unfold apply_config. destruct (findRegion provider regionId); [|reflexivity].
  unfold mbind at 1, M_bind at 1. rewrite Hs'.
  unfold lift, mbind at 1, M_bind at 1.
  destruct (mergeSettings _ _ _ _ _); reflexivity.
Qed.

Lemma unloadProviderConfig_run (iso : string) (fs : FS) (settings : json) :
  getSettings JSON_parse homedir fs = (Ok settings, fs) ->
  unloadProviderConfig JSON_parse JSON_stringify homedir iso fs =
    let fs1 := <[backup_path iso := match fs !! settings_path with
                                    | Some content => content
                                    | None => "{}"
                                    end]> fs in
    match unloadSettings settings with
    | Ok None => (Ok (), fs1)
    | Ok (Some newSettings) =>
        (Ok (), <[settings_path := JSON_stringify newSettings]> fs1)
    | Throw e => (Throw e, fs1)
    end.
Proof.
  intros Hs. cbv zeta.
  unfold unloadProviderConfig, mbind at 1, M_bind at 1.
  rewrite createBackup_run. unfold mbind at 1, M_bind at 1.
  unfold getSettings in *.
  rewrite (readDocument_frame settings_path fs _ settings); [| |exact Hs].
  - unfold lift, mbind at 1, M_bind at 1.
    destruct (unloadSettings settings) as [[d|]|e]; reflexivity.
  - apply lookup_insert_ne. intros H. now apply (settings_not_backup iso).
Qed.

Lemma detectCurrentConfig_run (fs : FS) (settings : json) :
  getSettings JSON_parse homedir fs = (Ok settings, fs) ->
  detectCurrentConfig JSON_parse homedir fs = (detect settings, fs).
Proof.
  intros Hs. unfold detectCurrentConfig, mbind, M_bind. now rewrite Hs.
Qed.

End ManagerProperties.

(** ** The theorems at work on the sample host *)


(** The claim of C10 as it is written fails when the config file holds the
    JSON value [null]: [ensureOnboarding] then throws a [TypeError] on
    [config.hasCompletedOnboarding], so with an unknown region the call
    ends before the region check: the backup is made, but the onboarding
    flag is not set and the error is not "Unknown region". *)
Lemma unknown_region_null_config :
  (forall r, r ∈ regions kimiProvider -> region_id r <> "mars") /\
  getConfig sample_parse sample_home sample_fs_null_config
    = (Ok JNull, sample_fs_null_config) /\
  exists fs' : FS,
    loadProviderConfig sample_parse sample_stringify sample_home
      kimiProvider "mars" "kimi-k2.5" "sk-test" sample_iso
      sample_fs_null_config
      = (Throw TypeError, fs') /\
    fs' !! settingsPath sample_home
      = sample_fs_null_config !! settingsPath sample_home /\
    fs' !! backupPath sample_home sample_iso
      = sample_fs_null_config !! settingsPath sample_home /\
    fs' !! configPath sample_home = Some "null".
Proof.
  split.
  { intros r Hr. apply list_elem_of_singleton in Hr as ->. discriminate. }
  split; [vm_compute; reflexivity|].
  eexists. split; [vm_compute; reflexivity|].
  split; [vm_compute; reflexivity|]. split; vm_compute; reflexivity.
Qed.

Lemma apply_replaces_managed_keys_witness :
  findRegion kimiProvider "global" = head (regions kimiProvider) /\
  exists d' env' : gmap string json,
    apply_config kimiProvider "global" "kimi-k2.5" "sk-new"
      (JObj {[ "env" := JObj {[ "ANTHROPIC_AUTH_TOKEN" := JStr "sk-old" ]} ]})
      = Ok (JObj d') /\
    d' !! "env" = Some (JObj env') /\
    env' !! "ANTHROPIC_AUTH_TOKEN" = Some (JStr "sk-new").
Proof.
  split; [reflexivity|].
  destruct (apply_replaces_managed_keys kimiProvider _ "global" "kimi-k2.5"
              "sk-new"
              {[ "env" := JObj {[ "ANTHROPIC_AUTH_TOKEN" := JStr "sk-old" ]} ]}
              eq_refl) as (d' & env' & Ha & He & Hk).
  exists d', env'. split; [exact Ha|]. split; [exact He|].
  rewrite (Hk "ANTHROPIC_AUTH_TOKEN"); [reflexivity|].
  apply managed_true. reflexivity.
Defined.

Lemma restoreBackup_spec_witness :
  (sample_fs !! "/backups/none.json" = None /\
   restoreBackup sample_parse sample_home "/backups/none.json" sample_fs =
     (Throw (Error "Backup file not found: /backups/none.json"), sample_fs)) /\
  (sample_fs !! "/backups/bad.json" = Some "not json" /\
   sample_parse "not json" = None /\
   restoreBackup sample_parse sample_home "/backups/bad.json" sample_fs =
     (Throw SyntaxError, sample_fs)) /\
  (sample_fs !! "/backups/good.json" = Some "{}" /\
   sample_parse "{}" = Some (JObj ∅) /\
   restoreBackup sample_parse sample_home "/backups/good.json" sample_fs =
     (Ok (), <[settingsPath sample_home := "{}"]> sample_fs)).
Proof.
  assert (sample_fs !! "/backups/none.json" = None) as H1 by reflexivity.
  assert (sample_fs !! "/backups/bad.json" = Some "not json") as H2
    by reflexivity.
  assert (sample_parse "not json" = None) as H2' by reflexivity.
  assert (sample_fs !! "/backups/good.json" = Some "{}") as H3 by reflexivity.
  assert (sample_parse "{}" = Some (JObj ∅)) as H3' by reflexivity.
  split; [split; [exact H1|] | split; [split; [exact H2 | split; [exact H2'|]]
                                      | split; [exact H3 | split; [exact H3'|]]]].
  - exact (proj1 (restoreBackup_spec sample_parse sample_home
                    "/backups/none.json" sample_fs) H1).
  - exact (proj1 (proj2 (restoreBackup_spec sample_parse sample_home
                           "/backups/bad.json" sample_fs)) _ H2 H2').
  - exact (proj2 (proj2 (restoreBackup_spec sample_parse sample_home
                           "/backups/good.json" sample_fs)) _ _ H3 H3').
Defined.


Lemma unknown_region_error_witness :
  (forall r, r ∈ regions kimiProvider -> region_id r <> "mars") /\
  apply_config kimiProvider "mars" "kimi-k2.5" "sk-test" (JObj sample_settings)
    = Throw (Error "Unknown region: mars") /\
  (exists r, r ∈ regions kimiProvider /\ region_id r = "global") /\
  apply_config kimiProvider "global" "kimi-k2.5" "sk-test" (JObj sample_settings)
    <> Throw (Error "Unknown region: global").
Proof.
  assert (forall r, r ∈ regions kimiProvider -> region_id r <> "mars") as Hno.
  { intros r Hr. apply list_elem_of_singleton in Hr as ->. discriminate. }
  assert (exists r, r ∈ regions kimiProvider /\ region_id r = "global") as Hyes.
  { eexists. split; [left | reflexivity]. }
  split; [exact Hno|]. split.
  - exact (proj1 (proj1 (unknown_region_error sample_parse sample_stringify
                           sample_home kimiProvider "mars" "kimi-k2.5"
                           "sk-test") Hno) (JObj sample_settings)).
  - split; [exact Hyes|].
    exact (proj1 (proj2 (unknown_region_error sample_parse sample_stringify
                           sample_home kimiProvider "global" "kimi-k2.5"
                           "sk-test") Hyes) (JObj sample_settings)).
Defined.

Lemma unknown_region_side_effects_witness :
  (forall r, r ∈ regions kimiProvider -> region_id r <> "mars") /\
  getConfig sample_parse sample_home sample_fs = (Ok (JObj ∅), sample_fs) /\
  JObj ∅ <> JNull /\
  exists fs' : FS,
    loadProviderConfig sample_parse sample_stringify sample_home
      kimiProvider "mars" "kimi-k2.5" "sk-test" sample_iso sample_fs =
      (Throw (Error "Unknown region: mars"), fs') /\
    fs' !! settingsPath sample_home = sample_fs !! settingsPath sample_home /\
    fs' !! backupPath sample_home sample_iso =
      Some (sample_stringify (JObj sample_settings)) /\
    fs' !! configPath sample_home =
      Some (sample_stringify (JObj {[ "hasCompletedOnboarding" := JBool true ]})).
Proof.
  assert (forall r, r ∈ regions kimiProvider -> region_id r <> "mars") as Hno.
  { intros r Hr. apply list_elem_of_singleton in Hr as ->. discriminate. }
  assert (getConfig sample_parse sample_home sample_fs =
            (Ok (JObj ∅), sample_fs)) as Hc by reflexivity.
  assert (JObj ∅ <> JNull) as Hn by discriminate.
  split; [exact Hno|]. split; [exact Hc|]. split; [exact Hn|].
  exact (unknown_region_side_effects sample_parse sample_stringify sample_home
           kimiProvider "mars" "kimi-k2.5" "sk-test" sample_iso sample_fs
           (JObj ∅) Hno Hc Hn).
Defined.

(** * Further properties of the merge engine *)

(** ** Idempotence *)

Lemma cleanedEnv_fixed (e : json) : cleanedEnv (JObj (cleanedEnv e)) = cleanedEnv e.
Proof.
  apply map_eq. intros k. rewrite (cleanedEnv_lookup (JObj _)).
  cbn [Object_entries]. rewrite cleanedEnv_lookup.
  destruct (managed k); [reflexivity|]. now case_decide.
Qed.

Lemma baseEnv_congr (c c' : gmap string json) (region : ProviderRegion)
    (apiKey k : string) :
  c !! k = c' !! k ->
  baseEnv c region apiKey !! k = baseEnv c' region apiKey !! k.
Proof.
  intros H. unfold baseEnv. rewrite !lookup_insert.
  repeat case_decide; try reflexivity. exact H.
Qed.

(** Cleaning the env that the merge built and building it again gives the
    same env. *)
Lemma newEnv_fixed (provider : Provider) (region : ProviderRegion)
    (modelId apiKey : string) (e : json) :
  newEnv provider region modelId apiKey
    (cleanedEnv (JObj (newEnv provider region modelId apiKey (cleanedEnv e)))) =
  newEnv provider region modelId apiKey (cleanedEnv e).
Proof.
  apply map_eq. intros k. rewrite !newEnv_lookup.
  case_decide as Hp.
  - apply baseEnv_congr. subst k.
    rewrite (cleanedEnv_lookup (JObj _)), (cleanedEnv_lookup e). reflexivity.
  - destruct (getEnvOverrides provider modelId !! k) eqn:Hov; [reflexivity|].
    apply baseEnv_congr.
    rewrite (cleanedEnv_lookup (JObj _)). cbn [Object_entries].
    destruct (managed k) eqn:Hm.
    + symmetry. apply cleanedEnv_managed. now apply managed_true.
    + rewrite decide_False by assumption.
      rewrite newEnv_lookup, decide_False, Hov by assumption.
      apply baseEnv_unmanaged. now apply managed_false.
Qed.

(** X1.  Applying a configuration to the document that the same apply
    produced changes nothing: apply is idempotent, for every provider and
    every document. *)
Theorem apply_config_idempotent (provider : Provider)
    (regionId modelId apiKey : string) (D D1 : json) :
  apply_config provider regionId modelId apiKey D = Ok D1 ->
  apply_config provider regionId modelId apiKey D1 = Ok D1.
Proof.
  unfold apply_config.
  destruct (findRegion provider regionId) as [region|]; [|discriminate].
  unfold mergeSettings.
  destruct (getProp D "env") as [env|] eqn:He; [|discriminate].
  cbn [mbind Result_bind mret Result_ret]. intros [= <-].
  cbn [getProp Object_entries mbind Result_bind].
  rewrite (lookup_insert_ne _ "model" "env") by discriminate.
  rewrite lookup_insert_eq. cbn [orEmpty truthy].
  rewrite newEnv_fixed. do 2 f_equal.
  apply map_eq. intros k. rewrite !lookup_insert.
  repeat case_decide; reflexivity.
Qed.

Lemma apply_config_idempotent_witness :
  exists D1 : json,
    apply_config kimiProvider "global" "kimi-k2.5" "sk-test"
      (JObj {[ "theme" := JStr "dark" ]}) = Ok D1 /\
    apply_config kimiProvider "global" "kimi-k2.5" "sk-test" D1 = Ok D1.
Proof.
  eexists. split; [reflexivity|].
  apply (apply_config_idempotent kimiProvider "global" "kimi-k2.5" "sk-test"
           (JObj {[ "theme" := JStr "dark" ]})).
  reflexivity.
Defined.

(** ** Unload *)

(** What unload leaves: either the document as it was (nothing to
    remove), or a document made of the cleaned env alone. *)
Lemma unload_cases (D D1 : json) :
  unload D = Ok D1 ->
  (D1 = D /\ truthy_opt (Object_entries D !! "env") = false /\
   truthy_opt (Object_entries D !! "model") = false /\ D <> JNull) \/
  D1 = JObj ∅ \/
  (exists e : json, D1 = JObj {[ "env" := JObj (cleanedEnv e) ]} /\
                    0 < size (cleanedEnv e)).
Proof.
  unfold unload, unloadSettings.
  destruct D; [discriminate|..];
    cbn [getProp mbind Result_bind mret Result_ret];
    match goal with
    | |- context [truthy_opt (Object_entries ?d !! "env")] =>
        destruct (truthy_opt (Object_entries d !! "env")) eqn:He;
        destruct (truthy_opt (Object_entries d !! "model")) eqn:Hm
    end;
    cbn [negb andb mbind Result_bind mret Result_ret];
    intros [= <-];
    try (left; repeat split; (reflexivity || discriminate));
    right;
    try (case_bool_decide; [right; eexists; split; [reflexivity | assumption]
                           | left; reflexivity]);
    try (left; reflexivity).
Qed.

(** X2.  Unloading twice is the same as unloading once. *)
Theorem unload_idempotent (D D1 : json) :
  unload D = Ok D1 -> unload D1 = Ok D1.
Proof.
  intros H. destruct (unload_cases D D1 H) as [(-> & _) | [-> | (e & -> & Hs)]].
  - exact H.
  - reflexivity.
  - unfold unload, unloadSettings. cbn [getProp Object_entries].
    rewrite lookup_singleton_eq, lookup_singleton_ne by discriminate.
    cbn [mbind Result_bind mret Result_ret truthy_opt truthy negb andb orEmpty].
    rewrite cleanedEnv_fixed. now rewrite bool_decide_eq_true_2 by assumption.
Qed.

Lemma unload_idempotent_witness :
  exists D1 : json,
    unload (JObj (<["model" := JStr "opus"]>
                  {[ "env" := JObj (<["FOO" := JStr "bar"]>
                                    {[ "ANTHROPIC_MODEL" := JStr "x" ]}) ]}))
      = Ok D1 /\
    unload D1 = Ok D1.
Proof.
  eexists. split; [reflexivity|].
  apply (unload_idempotent
           (JObj (<["model" := JStr "opus"]>
                  {[ "env" := JObj (<["FOO" := JStr "bar"]>
                                    {[ "ANTHROPIC_MODEL" := JStr "x" ]}) ]}))).
  reflexivity.
Defined.

(** The env after an unload is the cleaned env of the document, and the
    model is gone. *)
Lemma unload_env (D D1 : json) :
  unload D = Ok D1 ->
  D1 <> JNull /\
  truthy_opt (Object_entries D1 !! "model") = false /\
  Object_entries (orEmpty (Object_entries D1 !! "env")) =
    cleanedEnv (orEmpty (Object_entries D !! "env")).
Proof.
  intros H.
  assert (D <> JNull) as Hn by (intros ->; discriminate H).
  assert (forall k, getProp D k = Ok (Object_entries D !! k)) as Hg
    by (intros k; destruct D; first [reflexivity | congruence]).
  assert (cleanedEnv (JObj ∅) = ∅) as Hempty by apply map_fold_empty.
  assert (forall v : option json, truthy_opt v = false -> orEmpty v = JObj ∅)
    as Hfalsy.
  { intros [v|] Hv; [|reflexivity]. cbn [truthy_opt] in Hv. cbn [orEmpty].
    now rewrite Hv. }
  unfold unload, unloadSettings in H. rewrite !Hg in H.
  cbn [mbind Result_bind mret Result_ret] in H.
  destruct (truthy_opt (Object_entries D !! "env")) eqn:He.
  - cbn [negb andb mbind Result_bind mret Result_ret] in H.
    case_bool_decide as Hs; injection H as <-.
    + unfold assign. rewrite decide_False by discriminate.
      cbn [Object_entries].
      rewrite lookup_insert_ne by discriminate.
      rewrite lookup_insert_eq, lookup_empty.
      split; [discriminate|]. split; reflexivity.
    + cbn [Object_entries]. rewrite !lookup_empty.
      split; [discriminate|]. split; [reflexivity|].
      cbn [orEmpty Object_entries]. symmetry.
      apply map_size_empty_iff. lia.
  - destruct (truthy_opt (Object_entries D !! "model")) eqn:Hm;
      cbn [negb andb mbind Result_bind mret Result_ret] in H.
    + rewrite bool_decide_eq_false_2 in H by (rewrite map_size_empty; lia).
      injection H as <-. cbn [Object_entries]. rewrite !lookup_empty.
      split; [discriminate|]. split; [reflexivity|].
      rewrite (Hfalsy _ He). cbn [orEmpty Object_entries]. now rewrite Hempty.
    + injection H as <-. split; [exact Hn|]. split; [exact Hm|].
      rewrite (Hfalsy _ He). cbn [Object_entries]. now rewrite Hempty.
Qed.

(** X3.  An unload removes the model and exactly the managed keys: in the
    resulting document no truthy [model] is left, and its env has the
    entries of the old env whose key is not managed (and is not
    ["__proto__"], which the copy loop cannot create), and no other. *)
Theorem unload_removes_managed (D D1 : json) :
  unload D = Ok D1 ->
  truthy_opt (Object_entries D1 !! "model") = false /\
  (forall K, K ∈ MANAGED_ENV_KEYS ->
     Object_entries (orEmpty (Object_entries D1 !! "env")) !! K = None) /\
  (forall k, k ∉ MANAGED_ENV_KEYS -> k <> "__proto__" ->
     Object_entries (orEmpty (Object_entries D1 !! "env")) !! k =
     Object_entries (orEmpty (Object_entries D !! "env")) !! k).
Proof.
  intros H. destruct (unload_env D D1 H) as (_ & Hm & He).
  split; [exact Hm|]. rewrite He. split.
  - intros K HK. now apply cleanedEnv_managed.
  - intros k Hk Hp. rewrite cleanedEnv_lookup.
    apply managed_false in Hk. rewrite Hk.
    now rewrite decide_False by assumption.
Qed.

Lemma unload_removes_managed_witness :
  exists D1 : json,
    unload (JObj (<["model" := JStr "opus"]>
                  {[ "env" := JObj (<["FOO" := JStr "bar"]>
                                    {[ "ANTHROPIC_MODEL" := JStr "x" ]}) ]}))
      = Ok D1 /\
    truthy_opt (Object_entries D1 !! "model") = false /\
    Object_entries (orEmpty (Object_entries D1 !! "env")) !! "ANTHROPIC_MODEL"
      = None /\
    Object_entries (orEmpty (Object_entries D1 !! "env")) !! "FOO"
      = Some (JStr "bar").
Proof.
  eexists. split; [reflexivity|].
  match goal with
  | |- truthy_opt (Object_entries ?d !! _) = _ /\ _ =>
      destruct (unload_removes_managed
                  (JObj (<["model" := JStr "opus"]>
                         {[ "env" := JObj (<["FOO" := JStr "bar"]>
                                           {[ "ANTHROPIC_MODEL" := JStr "x" ]}) ]}))
                  d) as (Hm & Hk & Hf); [reflexivity|]
  end.
  split; [exact Hm|]. split.
  - apply Hk. apply managed_true. reflexivity.
  - rewrite Hf; [reflexivity | apply managed_false; reflexivity | discriminate].
Defined.

(** X4.  After an unload nothing is detected: [detectCurrentConfig]
    returns the all-undefined result. *)
Theorem detect_after_unload (D D1 : json) :
  unload D = Ok D1 -> detect D1 = Ok nothing_detected.
Proof.
  intros H. destruct (unload_env D D1 H) as (Hn & _ & Hk).
  unfold detect.
  assert (getProp D1 "env" = Ok (Object_entries D1 !! "env")) as ->
    by (destruct D1; first [reflexivity | congruence]).
  cbn [mbind Result_bind].
  set (env := orEmpty (Object_entries D1 !! "env")) in *.
  assert (env <> JNull) as He.
  { subst env. destruct (Object_entries D1 !! "env") as [[]|];
      cbn [orEmpty truthy]; try discriminate; now case_match. }
  assert (forall k, getProp env k = Ok (Object_entries env !! k)) as Hg
    by (intros k; destruct env; first [reflexivity | congruence]).
  rewrite !Hg. cbn [mbind Result_bind]. rewrite Hk.
  rewrite (cleanedEnv_managed _ "ANTHROPIC_BASE_URL")
    by (apply managed_true; reflexivity).
  reflexivity.
Qed.

Lemma detect_after_unload_witness :
  exists D1 : json,
    (merged ← apply_config kimiProvider "global" "kimi-k2.5" "sk-test"
                (JObj {[ "theme" := JStr "dark" ]});
     unload merged) = Ok D1 /\
    detect D1 = Ok nothing_detected.
Proof.
  eexists. split; [reflexivity|].
  apply (detect_after_unload
           (JObj (<["model" := JStr "kimi-k2.5"]>
                 (<["env" := JObj (newEnv kimiProvider
                     {| region_id := "global"; region_name := "Global";
                        baseUrl := "https://api.moonshot.ai/anthropic";
                        apiKeyUrl := "https://platform.moonshot.ai/console/api-keys" |}
                     "kimi-k2.5" "sk-test" ∅)]>
                 {[ "theme" := JStr "dark" ]})))).
  reflexivity.
Defined.

(** ** Detection after apply, on any document *)

Lemma mergeSettings_nonnull (provider : Provider) (region : ProviderRegion)
    (modelId apiKey : string) (D : json) :
  D <> JNull ->
  mergeSettings provider region modelId apiKey D =
    Ok (JObj (<["model" := JStr (mapModelToSetting modelId (id provider))]>
             (<["env" := JObj (newEnv provider region modelId apiKey
                                 (cleanedEnv (orEmpty (Object_entries D !! "env"))))]>
              (Object_entries D)))).
Proof. intros H. destruct D; first [reflexivity | congruence]. Qed.

(** Detection reads three keys of an env that is an object. *)
Lemma detect_object_env (d E : gmap string json) (u key : string) :
  d !! "env" = Some (JObj E) ->
  E !! "ANTHROPIC_BASE_URL" = Some (JStr u) ->
  E !! "ANTHROPIC_AUTH_TOKEN" = Some (JStr key) ->
  u <> "" -> key <> "" ->
  detect (JObj d) =
    Ok {| detected_provider := detectProviderByBaseUrl u;
          detected_regionId :=
            match detectProviderByBaseUrl u with
            | Some p =>
                region_id <$> find (fun r => String.eqb (baseUrl r) u) (regions p)
            | None => None
            end;
          detected_apiKey := Some (JStr key);
          detected_baseUrl := Some (JStr u);
          detected_model := E !! "ANTHROPIC_MODEL" |}.
Proof.
  intros He Hu Hk Hun Hkn. unfold detect. cbn [getProp Object_entries].
  rewrite He. cbn [mbind Result_bind orEmpty truthy getProp Object_entries].
  rewrite Hu, Hk. cbn [truthy_opt truthy].
  destruct u; [congruence|]. destruct key; [congruence|]. reflexivity.
Qed.

(** The registry providers do not override the credential or the base
    URL. *)
Lemma registry_keeps_base (P : Provider) (modelId : string) :
  P ∈ providers ->
  getEnvOverrides P modelId !! "ANTHROPIC_BASE_URL" = None /\
  getEnvOverrides P modelId !! "ANTHROPIC_AUTH_TOKEN" = None.
Proof.
  unfold providers. rewrite !elem_of_cons, elem_of_nil.
  intros [->|[->|[->|[->|[]]]]]; split; reflexivity.
Qed.

(** In the registry a region is found by its id, and its base URL
    identifies its provider and itself. *)
Lemma registry_regions (P : Provider) (R : ProviderRegion) :
  P ∈ providers -> R ∈ regions P ->
  findRegion P (region_id R) = Some R /\
  baseUrl R <> "" /\
  detectProviderByBaseUrl (baseUrl R) = Some P /\
  find (fun r => String.eqb (baseUrl r) (baseUrl R)) (regions P) = Some R.
Proof.
  unfold providers. intros HP HR.
  repeat (apply elem_of_cons in HP as [->|HP]); [..|inversion HP];
    cbn [regions claudeProvider zhipuProvider minimaxProvider kimiProvider] in HR;
    repeat (apply elem_of_cons in HR as [->|HR]); try (now inversion HR);
    (split; [reflexivity|]; split; [discriminate|];
     split; vm_compute; reflexivity).
Qed.

Lemma detect_merged_registry (P : Provider) (R : ProviderRegion)
    (modelId apiKey : string) (D : json) :
  P ∈ providers ->
  R ∈ regions P ->
  apiKey <> "" ->
  D <> JNull ->
  exists (merged : json) (cfg : DetectedConfig),
    apply_config P (region_id R) modelId apiKey D = Ok merged /\
    detect merged = Ok cfg /\
    detected_provider cfg = Some P /\
    detected_regionId cfg = Some (region_id R) /\
    detected_apiKey cfg = Some (JStr apiKey) /\
    detected_baseUrl cfg = Some (JStr (baseUrl R)).
Proof.
  intros HP HR Hk HD.
  destruct (registry_regions P R HP HR) as (Hf & Hu & Hd & Hr).
  destruct (registry_keeps_base P modelId HP) as [Hob Hoa].
  eexists _, _. split.
  { unfold apply_config. rewrite Hf. now apply mergeSettings_nonnull. }
  split.
  { eapply detect_object_env with (u := baseUrl R) (key := apiKey).
    - rewrite lookup_insert_ne by discriminate. apply lookup_insert_eq.
    - rewrite newEnv_lookup, decide_False, Hob by discriminate.
      unfold baseEnv. rewrite !lookup_insert_ne by discriminate.
      apply lookup_insert_eq.
    - rewrite newEnv_lookup, decide_False, Hoa by discriminate.
      unfold baseEnv. rewrite !lookup_insert_ne by discriminate.
      apply lookup_insert_eq.
    - exact Hu.
    - exact Hk. }
  cbn [detected_provider detected_regionId detected_apiKey detected_baseUrl].
  rewrite Hd, Hr. repeat split; reflexivity.
Qed.

(** X5.  For every provider and region of the registry, every model id,
    every credential that is not empty and every current document other
    than [null], detection on the document that apply produces finds the
    provider and the region and returns the credential and the base URL
    that were applied; the model it returns is the provider's override of
    [ANTHROPIC_MODEL], and undefined for a provider without one. *)
Theorem detect_after_apply_any (P : Provider) (R : ProviderRegion)
    (modelId apiKey : string) (D : json) :
  P ∈ providers ->
  R ∈ regions P ->
  apiKey <> "" ->
  D <> JNull ->
  exists (merged : json) (cfg : DetectedConfig),
    apply_config P (region_id R) modelId apiKey D = Ok merged /\
    detect merged = Ok cfg /\
    detected_provider cfg = Some P /\
    detected_regionId cfg = Some (region_id R) /\
    detected_apiKey cfg = Some (JStr apiKey) /\
    detected_baseUrl cfg = Some (JStr (baseUrl R)) /\
    detected_model cfg = JStr <$> getEnvOverrides P modelId !! "ANTHROPIC_MODEL".
Proof.
  intros HP HR Hk HD.
  destruct (registry_regions P R HP HR) as (Hf & Hu & Hd & Hr).
  destruct (registry_keeps_base P modelId HP) as [Hob Hoa].
  eexists _, _. split.
  { unfold apply_config. rewrite Hf. now apply mergeSettings_nonnull. }
  split.
  { eapply detect_object_env with (u := baseUrl R) (key := apiKey).
    - rewrite lookup_insert_ne by discriminate. apply lookup_insert_eq.
    - rewrite newEnv_lookup, decide_False, Hob by discriminate.
      unfold baseEnv. rewrite !lookup_insert_ne by discriminate.
      apply lookup_insert_eq.
    - rewrite newEnv_lookup, decide_False, Hoa by discriminate.
      unfold baseEnv. rewrite !lookup_insert_ne by discriminate.
      apply lookup_insert_eq.
    - exact Hu.
    - exact Hk. }
  cbn [detected_provider detected_regionId detected_apiKey detected_baseUrl
       detected_model].
  rewrite Hd, Hr. do 4 (split; [reflexivity|]).
  rewrite newEnv_lookup, decide_False by discriminate.
  destruct (getEnvOverrides P modelId !! "ANTHROPIC_MODEL"); [reflexivity|].
  unfold baseEnv. rewrite !lookup_insert_ne by discriminate.
  apply cleanedEnv_managed, managed_true. reflexivity.
Qed.

Lemma detect_after_apply_any_witness :
  zhipuProvider ∈ providers /\
  exists R : ProviderRegion,
    R ∈ regions zhipuProvider /\ region_id R = "china" /\
    "sk-test" <> "" /\
    JObj {[ "env" := JObj {[ "ANTHROPIC_BASE_URL" := JStr "https://old" ]} ]}
      <> JNull /\
    exists (merged : json) (cfg : DetectedConfig),
      apply_config zhipuProvider "china" "glm-5" "sk-test"
        (JObj {[ "env" := JObj {[ "ANTHROPIC_BASE_URL" := JStr "https://old" ]} ]})
        = Ok merged /\
      detect merged = Ok cfg /\
      detected_provider cfg = Some zhipuProvider /\
      detected_regionId cfg = Some "china" /\
      detected_apiKey cfg = Some (JStr "sk-test") /\
      detected_baseUrl cfg = Some (JStr "https://open.bigmodel.cn/api/anthropic") /\
      detected_model cfg = None.
Proof.
  assert (zhipuProvider ∈ providers) as HP by (right; left).
  split; [exact HP|].
  eexists. assert (forall (A : Type) (x y : A), y ∈ [x; y]) as Hin
    by (intros; right; left).
  split; [apply Hin|]. split; [reflexivity|].
  assert ("sk-test" <> "") as Hk by discriminate.
  split; [exact Hk|].
  assert (JObj {[ "env" := JObj {[ "ANTHROPIC_BASE_URL" := JStr "https://old" ]} ]}
            <> JNull) as HD by discriminate.
  split; [exact HD|].
  exact (detect_after_apply_any zhipuProvider _ "glm-5" "sk-test" _
           HP (Hin _ _ _) Hk HD).
Defined.

(** * Further properties of the manager *)

Section ManagerComposition.

Context (JSON_parse : string -> option json)
        (JSON_stringify : json -> string)
        (homedir : string).

Local Abbreviation settings_path := (settingsPath homedir).
Local Abbreviation config_path := (configPath homedir).
Local Abbreviation backup_path := (backupPath homedir).

(** Onboarding writes the config file or nothing. *)
Lemma ensureOnboarding_frame (fs : FS) (p : string) :
  p <> config_path ->
  (ensureOnboarding JSON_parse JSON_stringify homedir fs).2 !! p = fs !! p.
Proof.
  intros Hp.
  pose proof (readDocument_run JSON_parse config_path fs) as Hc.
  set (config := match fs !! config_path with Some _ => _ | None => _ end) in Hc.
  clearbody config.
  assert (config = JNull \/ config <> JNull) as [Hn|Hn]
    by (destruct config; first [left; reflexivity | right; discriminate]).
  - unfold ensureOnboarding, getConfig. run_M. rewrite Hc, Hn. reflexivity.
  - rewrite (ensureOnboarding_run JSON_parse JSON_stringify homedir fs config Hc Hn).
    cbn [snd]. destruct (truthy_opt _); [reflexivity|].
    apply lookup_insert_ne. congruence.
Qed.

(** X6.  Whatever its arguments and however it ends, [loadProviderConfig]
    changes no file other than the settings file, the config file and the
    backup made at that instant. *)
Theorem loadProviderConfig_frame (provider : Provider)
    (regionId modelId apiKey iso : string) (fs : FS) (p : string) :
  p <> settings_path ->
  p <> config_path ->
  p <> backup_path iso ->
  (loadProviderConfig JSON_parse JSON_stringify homedir
     provider regionId modelId apiKey iso fs).2 !! p = fs !! p.
Proof.
  intros Hs Hc Hb.
  unfold loadProviderConfig, mbind at 1, M_bind at 1.
  rewrite createBackup_run. unfold mbind at 1, M_bind at 1.
  set (fs1 := <[backup_path iso := _]> fs).
  pose proof (ensureOnboarding_frame fs1 p Hc) as Ho.
  destruct (ensureOnboarding JSON_parse JSON_stringify homedir fs1)
    as [[[]|e] fs2]; cbn [snd] in *.
  - assert (fs2 !! p = fs !! p) as H2.
    { rewrite Ho. subst fs1. apply lookup_insert_ne. congruence. }
    destruct (findRegion provider regionId); [|exact H2].
    unfold getSettings, mbind at 1, M_bind at 1.
    rewrite readDocument_run. unfold lift, mbind at 1, M_bind at 1.
    destruct (mergeSettings _ _ _ _ _); [|exact H2].
    unfold saveSettings. run_M. cbn [snd].
    rewrite lookup_insert_ne by congruence. exact H2.
  - rewrite Ho. subst fs1. apply lookup_insert_ne. congruence.
Qed.

(** X7.  [unloadProviderConfig] changes no file other than the settings
    file and the backup made at that instant. *)
Theorem unloadProviderConfig_frame (iso : string) (fs : FS) (p : string) :
  p <> settings_path ->
  p <> backup_path iso ->
  (unloadProviderConfig JSON_parse JSON_stringify homedir iso fs).2 !! p
    = fs !! p.
Proof.
  intros Hs Hb.
  unfold unloadProviderConfig, mbind at 1, M_bind at 1.
  rewrite createBackup_run. unfold mbind at 1, M_bind at 1.
  unfold getSettings. rewrite readDocument_run.
  unfold lift, mbind at 1, M_bind at 1.
  destruct (unloadSettings _) as [[d|]|e]; unfold saveSettings; run_M;
    cbn [snd]; rewrite !lookup_insert_ne by congruence; reflexivity.
Qed.

(** Restoring a backup that holds JSON text, and one that does not. *)
Lemma restoreBackup_run_ok (p : string) (fs : FS) (content : string) (v : json) :
  fs !! p = Some content ->
  JSON_parse content = Some v ->
  restoreBackup JSON_parse homedir p fs =
    (Ok (), <[settings_path := content]> fs).
Proof.
  intros Hp Hj. unfold restoreBackup, parse. run_M. rewrite Hp.
  rewrite bool_decide_eq_true_2 by (now exists content).
  cbv beta iota. rewrite Hp. cbv beta iota. rewrite Hj.
  cbv beta iota. now rewrite Hp.
Qed.


(** X8.  The backup that [loadProviderConfig] makes undoes it: when the
    settings file held JSON text, restoring the backup of that instant
    after a successful apply puts the old text back. *)
Theorem restore_undoes_apply (provider : Provider) (region : ProviderRegion)
    (regionId modelId apiKey iso : string) (fs : FS)
    (content : string) (settings config : json) :
  fs !! settings_path = Some content ->
  JSON_parse content = Some settings ->
  settings <> JNull ->
  getConfig JSON_parse homedir fs = (Ok config, fs) ->
  config <> JNull ->
  findRegion provider regionId = Some region ->
  exists fs1 fs2 : FS,
    loadProviderConfig JSON_parse JSON_stringify homedir
      provider regionId modelId apiKey iso fs = (Ok (), fs1) /\
    restoreBackup JSON_parse homedir (backup_path iso) fs1 = (Ok (), fs2) /\
    fs2 !! settings_path = Some content.
Proof.
  intros Hf Hj Hn Hc Hcn Hr.
  assert (getSettings JSON_parse homedir fs = (Ok settings, fs)) as Hs.
  { unfold getSettings. rewrite readDocument_run, Hf, Hj. reflexivity. }
  rewrite (loadProviderConfig_run JSON_parse JSON_stringify homedir provider
             regionId modelId apiKey iso fs config settings Hc Hcn Hs).
  cbv zeta. unfold apply_config. rewrite Hr.
  rewrite mergeSettings_nonnull by assumption. rewrite Hf.
  eexists _, _. split; [reflexivity|].
  split.
  - apply (restoreBackup_run_ok _ _ content settings); [|exact Hj].
    rewrite lookup_insert_ne by apply settings_not_backup.
    destruct (truthy_opt _).
    + apply lookup_insert_eq.
    + rewrite lookup_insert_ne by apply config_not_backup.
      apply lookup_insert_eq.
  - apply lookup_insert_eq.
Qed.


(** X10.  Apply, then detect, through the files: when the text that
    [JSON.stringify] prints for the new settings parses back to them, for
    a provider and region of the registry and a credential that is not
    empty, [detectCurrentConfig] after a successful [loadProviderConfig]
    reports that provider, region, credential and base URL. *)
Theorem detectCurrentConfig_after_load (P : Provider) (R : ProviderRegion)
    (modelId apiKey iso : string) (fs : FS) (settings config : json) :
  P ∈ providers ->
  R ∈ regions P ->
  apiKey <> "" ->
  getSettings JSON_parse homedir fs = (Ok settings, fs) ->
  settings <> JNull ->
  getConfig JSON_parse homedir fs = (Ok config, fs) ->
  config <> JNull ->
  (forall merged,
     apply_config P (region_id R) modelId apiKey settings = Ok merged ->
     JSON_parse (JSON_stringify merged) = Some merged) ->
  exists (fs1 : FS) (cfg : DetectedConfig),
    loadProviderConfig JSON_parse JSON_stringify homedir
      P (region_id R) modelId apiKey iso fs = (Ok (), fs1) /\
    detectCurrentConfig JSON_parse homedir fs1 = (Ok cfg, fs1) /\
    detected_provider cfg = Some P /\
    detected_regionId cfg = Some (region_id R) /\
    detected_apiKey cfg = Some (JStr apiKey) /\
    detected_baseUrl cfg = Some (JStr (baseUrl R)).
Proof.
  intros HP HR Hk Hs Hn Hc Hcn Hrt.
  destruct (detect_merged_registry P R modelId apiKey settings HP HR Hk Hn)
    as (merged & cfg & Ha & Hd & Hres).
  rewrite (loadProviderConfig_run JSON_parse JSON_stringify homedir P
             (region_id R) modelId apiKey iso fs config settings Hc Hcn Hs).
  cbv zeta. rewrite Ha.
  eexists _, cfg. split; [reflexivity|]. split; [|exact Hres].
  erewrite detectCurrentConfig_run; [rewrite Hd; reflexivity|].
  unfold getSettings. rewrite readDocument_run, lookup_insert_eq.
  now rewrite (Hrt merged Ha).
Qed.

End ManagerComposition.

Lemma loadProviderConfig_frame_witness :
  "/home/user/notes.txt" <> settingsPath sample_home /\
  "/home/user/notes.txt" <> configPath sample_home /\
  "/home/user/notes.txt" <> backupPath sample_home sample_iso /\
  (loadProviderConfig sample_parse sample_stringify sample_home
     kimiProvider "global" "kimi-k2.5" "sk-test" sample_iso
     (<["/home/user/notes.txt" := "keep"]> sample_fs)).2
    !! "/home/user/notes.txt" = Some "keep".
Proof.
  assert ("/home/user/notes.txt" <> settingsPath sample_home) as H1
    by discriminate.
  assert ("/home/user/notes.txt" <> configPath sample_home) as H2
    by discriminate.
  assert ("/home/user/notes.txt" <> backupPath sample_home sample_iso) as H3
    by discriminate.
  split; [exact H1|]. split; [exact H2|]. split; [exact H3|].
  exact (loadProviderConfig_frame sample_parse sample_stringify sample_home
           kimiProvider "global" "kimi-k2.5" "sk-test" sample_iso
           (<["/home/user/notes.txt" := "keep"]> sample_fs)
           "/home/user/notes.txt" H1 H2 H3).
Defined.

Lemma unloadProviderConfig_frame_witness :
  configPath sample_home <> settingsPath sample_home /\
  configPath sample_home <> backupPath sample_home sample_iso /\
  (unloadProviderConfig sample_parse sample_stringify sample_home sample_iso
     (<[configPath sample_home := "{}"]> sample_fs)).2
    !! configPath sample_home = Some "{}".
Proof.
  assert (configPath sample_home <> settingsPath sample_home) as H1
    by discriminate.
  assert (configPath sample_home <> backupPath sample_home sample_iso) as H2
    by discriminate.
  split; [exact H1|]. split; [exact H2|].
  exact (unloadProviderConfig_frame sample_parse sample_stringify sample_home
           sample_iso (<[configPath sample_home := "{}"]> sample_fs)
           (configPath sample_home) H1 H2).
Defined.

Lemma restore_undoes_apply_witness :
  sample_fs !! settingsPath sample_home
    = Some (sample_stringify (JObj sample_settings)) /\
  sample_parse (sample_stringify (JObj sample_settings))
    = Some (JObj sample_settings) /\
  JObj sample_settings <> JNull /\
  getConfig sample_parse sample_home sample_fs = (Ok (JObj ∅), sample_fs) /\
  JObj ∅ <> JNull /\
  findRegion kimiProvider "global" = head (regions kimiProvider) /\
  exists fs1 fs2 : FS,
    loadProviderConfig sample_parse sample_stringify sample_home
      kimiProvider "global" "kimi-k2.5" "sk-test" sample_iso sample_fs
      = (Ok (), fs1) /\
    restoreBackup sample_parse sample_home
      (backupPath sample_home sample_iso) fs1 = (Ok (), fs2) /\
    fs2 !! settingsPath sample_home
      = Some (sample_stringify (JObj sample_settings)).
Proof.
  assert (sample_fs !! settingsPath sample_home
            = Some (sample_stringify (JObj sample_settings))) as H1
    by reflexivity.
  assert (sample_parse (sample_stringify (JObj sample_settings))
            = Some (JObj sample_settings)) as H2 by (vm_compute; reflexivity).
  assert (JObj sample_settings <> JNull) as H3 by discriminate.
  assert (getConfig sample_parse sample_home sample_fs
            = (Ok (JObj ∅), sample_fs)) as H4 by reflexivity.
  assert (JObj ∅ <> JNull) as H5 by discriminate.
  assert (findRegion kimiProvider "global" = head (regions kimiProvider)) as H6
    by reflexivity.
  split; [exact H1|]. split; [exact H2|]. split; [exact H3|].
  split; [exact H4|]. split; [exact H5|]. split; [exact H6|].
  exact (restore_undoes_apply sample_parse sample_stringify sample_home
           kimiProvider _ "global" "kimi-k2.5" "sk-test" sample_iso sample_fs
           _ _ _ H1 H2 H3 H4 H5 H6).
Defined.


Lemma detectCurrentConfig_after_load_witness :
  kimiProvider ∈ providers /\
  exists R : ProviderRegion,
    R ∈ regions kimiProvider /\ region_id R = "global" /\
    "sk-test" <> "" /\
    getSettings sample_parse sample_home sample_fs
      = (Ok (JObj sample_settings), sample_fs) /\
    JObj sample_settings <> JNull /\
    getConfig sample_parse sample_home sample_fs = (Ok (JObj ∅), sample_fs) /\
    JObj ∅ <> JNull /\
    (forall merged,
       apply_config kimiProvider "global" "kimi-k2.5" "sk-test"
         (JObj sample_settings) = Ok merged ->
       sample_parse (sample_stringify merged) = Some merged) /\
    exists (fs1 : FS) (cfg : DetectedConfig),
      loadProviderConfig sample_parse sample_stringify sample_home
        kimiProvider "global" "kimi-k2.5" "sk-test" sample_iso sample_fs
        = (Ok (), fs1) /\
      detectCurrentConfig sample_parse sample_home fs1 = (Ok cfg, fs1) /\
      detected_provider cfg = Some kimiProvider /\
      detected_regionId cfg = Some "global" /\
      detected_apiKey cfg = Some (JStr "sk-test") /\
      detected_baseUrl cfg = Some (JStr "https://api.moonshot.ai/anthropic").
Proof.
  assert (kimiProvider ∈ providers) as HP by (do 3 right; left).
  split; [exact HP|]. eexists.
  assert (forall (A : Type) (x : A), x ∈ [x]) as Hin by (intros; left).
  split; [apply Hin|]. split; [reflexivity|].
  assert ("sk-test" <> "") as Hk by discriminate.
  assert (getSettings sample_parse sample_home sample_fs
            = (Ok (JObj sample_settings), sample_fs)) as Hs
    by (vm_compute; reflexivity).
  assert (JObj sample_settings <> JNull) as Hn by discriminate.
  assert (getConfig sample_parse sample_home sample_fs
            = (Ok (JObj ∅), sample_fs)) as Hc by reflexivity.
  assert (JObj ∅ <> JNull) as Hcn by discriminate.
  assert (forall merged,
            apply_config kimiProvider "global" "kimi-k2.5" "sk-test"
              (JObj sample_settings) = Ok merged ->
            sample_parse (sample_stringify merged) = Some merged) as Hrt.
  { intros merged [= <-]. vm_compute. reflexivity. }
  split; [exact Hk|]. split; [exact Hs|]. split; [exact Hn|].
  split; [exact Hc|]. split; [exact Hcn|]. split; [exact Hrt|].
  exact (detectCurrentConfig_after_load sample_parse sample_stringify
           sample_home kimiProvider _ "kimi-k2.5" "sk-test" sample_iso
           sample_fs _ _ HP (Hin _ _) Hk Hs Hn Hc Hcn Hrt).
Defined.

(** * Switching providers *)

(** Cleaning the env that a merge built gives back the cleaned env it was
    built on, when the overrides stay within the managed keys. *)
Lemma cleanedEnv_newEnv (provider : Provider) (region : ProviderRegion)
    (modelId apiKey : string) (e : json) :
  (forall k, is_Some (getEnvOverrides provider modelId !! k) ->
             k ∈ MANAGED_ENV_KEYS) ->
  cleanedEnv (JObj (newEnv provider region modelId apiKey (cleanedEnv e)))
    = cleanedEnv e.
Proof.
  intros Hov. apply map_eq. intros k.
  rewrite (cleanedEnv_lookup (JObj _)). cbn [Object_entries].
  destruct (managed k) eqn:Hm.
  - symmetry. apply cleanedEnv_managed. now apply managed_true.
  - case_decide as Hp.
    + subst k. rewrite cleanedEnv_lookup, proto_not_managed.
      now rewrite decide_True by reflexivity.
    + apply managed_false in Hm.
      rewrite newEnv_lookup, decide_False by assumption.
      destruct (getEnvOverrides provider modelId !! k) as [v|] eqn:Hv.
      * exfalso. apply Hm, Hov. now exists v.
      * now apply baseEnv_unmanaged.
Qed.

(** X24.  Switching leaves no trace of the provider that was configured
    before: applying a second configuration to the document that a
    provider of the registry produced gives the same document as applying
    it to the original document (or fails in the same way). *)
Theorem apply_config_switch (p1 p2 : Provider)
    (r1 m1 k1 r2 m2 k2 : string) (D D1 : json) :
  p1 ∈ providers ->
  apply_config p1 r1 m1 k1 D = Ok D1 ->
  apply_config p2 r2 m2 k2 D1 = apply_config p2 r2 m2 k2 D.
Proof.
  intros Hp H. unfold apply_config in *.
  destruct (findRegion p1 r1) as [reg1|]; [|discriminate].
  assert (D <> JNull) as Hn by (intros ->; discriminate H).
  rewrite mergeSettings_nonnull in H by exact Hn. injection H as <-.
  destruct (findRegion p2 r2) as [reg2|]; [|reflexivity].
  rewrite mergeSettings_object, (mergeSettings_nonnull _ _ _ _ D) by exact Hn.
  rewrite (lookup_insert_ne _ "model" "env") by discriminate.
  rewrite lookup_insert_eq. cbn [orEmpty truthy].
  rewrite cleanedEnv_newEnv by (intros k; now apply registry_overrides_managed).
  do 2 f_equal. apply map_eq. intros k. rewrite !lookup_insert.
  repeat case_decide; reflexivity.
Qed.

Lemma apply_config_switch_witness :
  kimiProvider ∈ providers /\
  exists D1 : json,
    apply_config kimiProvider "global" "kimi-k2.5" "sk-kimi"
      (JObj {[ "env" := JObj {[ "FOO" := JStr "bar" ]} ]}) = Ok D1 /\
    apply_config zhipuProvider "china" "glm-5" "sk-zhipu" D1 =
    apply_config zhipuProvider "china" "glm-5" "sk-zhipu"
      (JObj {[ "env" := JObj {[ "FOO" := JStr "bar" ]} ]}).
Proof.
  assert (kimiProvider ∈ providers) as HP by (do 3 right; left).
  split; [exact HP|]. eexists. split; [reflexivity|].
  apply (apply_config_switch kimiProvider zhipuProvider
           "global" "kimi-k2.5" "sk-kimi" "china" "glm-5" "sk-zhipu"
           (JObj {[ "env" := JObj {[ "FOO" := JStr "bar" ]} ]}) _ HP).
  reflexivity.
Defined.

(** * Backups of one instant, and onboarding *)

Lemma length_append (a b : string) :
  String.length (a +:+ b) = (String.length a + String.length b)%nat.
Proof.
  induction a as [|x a IH]; [reflexivity|].
  rewrite append_cons. cbn [String.length]. now rewrite IH.
Qed.

Lemma append_inj_r (a b c : string) : a +:+ c = b +:+ c -> a = b.
Proof.
  revert b. induction a as [|x a IH]; intros [|y b] H.
  - reflexivity.
  - exfalso. apply (f_equal String.length) in H.
    rewrite !length_append in H. cbn [String.length] in H. lia.
  - exfalso. apply (f_equal String.length) in H.
    rewrite !length_append in H. cbn [String.length] in H. lia.
  - rewrite !append_cons in H. injection H as -> H. f_equal. now apply IH.
Qed.

Section ManagerBackups.

Context (JSON_parse : string -> option json)
        (JSON_stringify : json -> string)
        (homedir : string).

Local Abbreviation settings_path := (settingsPath homedir).
Local Abbreviation config_path := (configPath homedir).
Local Abbreviation backup_path := (backupPath homedir).

(** Two instants give the same backup file exactly when their timestamps
    agree once the colons and dots are dashes. *)
Lemma backupPath_eq (iso1 iso2 : string) :
  backup_path iso1 = backup_path iso2 <->
  dash_colons_dots iso1 = dash_colons_dots iso2.
Proof.
  unfold backupPath, join. split; [|now intros ->].
  intros H.
  apply (inj (String.append _)) in H.
  apply (inj (String.append "/")) in H.
  apply (inj (String.append "settings-")) in H.
  now apply append_inj_r in H.
Qed.

(** X25.  A backup survives a later backup unless both instants give the
    same file name: after a backup at one instant, a change of the
    settings file and a backup at another instant, the second backup holds
    the new settings, and the first still holds the old ones exactly when
    the two timestamps differ once their colons and dots are dashes;
    otherwise the first backup is overwritten. *)
Theorem createBackup_twice (iso1 iso2 : string) (fs : FS)
    (content1 content2 : string) :
  fs !! settings_path = Some content1 ->
  exists fs1 fs2 : FS,
    createBackup homedir iso1 fs = (Ok (backup_path iso1), fs1) /\
    createBackup homedir iso2 (<[settings_path := content2]> fs1)
      = (Ok (backup_path iso2), fs2) /\
    fs2 !! backup_path iso2 = Some content2 /\
    fs2 !! backup_path iso1 =
      Some (if decide (dash_colons_dots iso1 = dash_colons_dots iso2)
            then content2 else content1).
Proof.
  intros Hs. exists (<[backup_path iso1 := content1]> fs). eexists.
  split; [now rewrite createBackup_run, Hs|].
  split; [rewrite createBackup_run, lookup_insert_eq; reflexivity|].
  split; [apply lookup_insert_eq|].
  case_decide as Hd.
  - apply backupPath_eq in Hd. rewrite Hd. apply lookup_insert_eq.
  - rewrite lookup_insert_ne by (intros He; now apply Hd, backupPath_eq).
    rewrite lookup_insert_ne by apply settings_not_backup.
    apply lookup_insert_eq.
Qed.

(** X26.  Onboarding sets the flag and nothing else: when the config
    document that it writes is read back as written, the config file
    afterwards holds a truthy [hasCompletedOnboarding] and every other key
    as before, and a second onboarding writes nothing. *)
Theorem ensureOnboarding_sets_flag (fs : FS) (config : json) :
  getConfig JSON_parse homedir fs = (Ok config, fs) ->
  config <> JNull ->
  JSON_parse
    (JSON_stringify (JObj (<["hasCompletedOnboarding" := JBool true]>
                             (Object_entries config))))
    = Some (JObj (<["hasCompletedOnboarding" := JBool true]>
                    (Object_entries config))) ->
  exists (fs1 : FS) (config1 : json),
    ensureOnboarding JSON_parse JSON_stringify homedir fs = (Ok (), fs1) /\
    getConfig JSON_parse homedir fs1 = (Ok config1, fs1) /\
    truthy_opt (Object_entries config1 !! "hasCompletedOnboarding") = true /\
    (forall k, k <> "hasCompletedOnboarding" ->
               Object_entries config1 !! k = Object_entries config !! k) /\
    (forall p, p <> config_path -> fs1 !! p = fs !! p) /\
    ensureOnboarding JSON_parse JSON_stringify homedir fs1 = (Ok (), fs1).
Proof.
  intros Hc Hn Hrt.
  rewrite (ensureOnboarding_run JSON_parse JSON_stringify homedir fs config Hc Hn).
  destruct (truthy_opt (Object_entries config !! "hasCompletedOnboarding"))
    eqn:Hflag.
  - exists fs, config. split; [reflexivity|]. split; [exact Hc|].
    split; [exact Hflag|]. split; [reflexivity|]. split; [reflexivity|].
    rewrite (ensureOnboarding_run JSON_parse JSON_stringify homedir fs config
               Hc Hn).
    now rewrite Hflag.
  - set (config1 := JObj (<["hasCompletedOnboarding" := JBool true]>
                            (Object_entries config))) in *.
    set (fs1 := <[config_path := JSON_stringify config1]> fs).
    assert (getConfig JSON_parse homedir fs1 = (Ok config1, fs1)) as Hc1.
    { unfold getConfig. rewrite readDocument_run. subst fs1.
      now rewrite lookup_insert_eq, Hrt. }
    exists fs1, config1. split; [reflexivity|]. split; [exact Hc1|].
    split; [subst config1; cbn [Object_entries];
            now rewrite lookup_insert_eq|].
    split; [intros k Hk; subst config1; cbn [Object_entries];
            now rewrite lookup_insert_ne by congruence|].
    split; [intros p Hp; subst fs1; now rewrite lookup_insert_ne by congruence|].
    rewrite (ensureOnboarding_run JSON_parse JSON_stringify homedir fs1 config1
               Hc1 ltac:(discriminate)).
    subst config1. cbn [Object_entries]. now rewrite lookup_insert_eq.
Qed.

End ManagerBackups.

Lemma createBackup_twice_witness :
  sample_fs !! settingsPath sample_home
    = Some (sample_stringify (JObj sample_settings)) /\
  exists fs1 fs2 : FS,
    createBackup sample_home sample_iso sample_fs
      = (Ok (backupPath sample_home sample_iso), fs1) /\
    createBackup sample_home "2026-02-15T14:30:01.000Z"
      (<[settingsPath sample_home := "{}"]> fs1)
      = (Ok (backupPath sample_home "2026-02-15T14:30:01.000Z"), fs2) /\
    fs2 !! backupPath sample_home "2026-02-15T14:30:01.000Z" = Some "{}" /\
    fs2 !! backupPath sample_home sample_iso =
      Some (if decide (dash_colons_dots sample_iso
                       = dash_colons_dots "2026-02-15T14:30:01.000Z")
            then "{}" else sample_stringify (JObj sample_settings)).
Proof.
  assert (sample_fs !! settingsPath sample_home
            = Some (sample_stringify (JObj sample_settings))) as H
    by reflexivity.
  split; [exact H|].
  exact (createBackup_twice sample_home sample_iso "2026-02-15T14:30:01.000Z"
           sample_fs _ "{}" H).
Defined.

Lemma ensureOnboarding_sets_flag_witness :
  getConfig sample_parse sample_home sample_fs = (Ok (JObj ∅), sample_fs) /\
  JObj ∅ <> JNull /\
  sample_parse
    (sample_stringify (JObj (<["hasCompletedOnboarding" := JBool true]>
                               (Object_entries (JObj ∅)))))
    = Some (JObj (<["hasCompletedOnboarding" := JBool true]>
                    (Object_entries (JObj ∅)))) /\
  exists (fs1 : FS) (config1 : json),
    ensureOnboarding sample_parse sample_stringify sample_home sample_fs
      = (Ok (), fs1) /\
    getConfig sample_parse sample_home fs1 = (Ok config1, fs1) /\
    truthy_opt (Object_entries config1 !! "hasCompletedOnboarding") = true /\
    (forall k, k <> "hasCompletedOnboarding" ->
               Object_entries config1 !! k = Object_entries (JObj ∅) !! k) /\
    (forall p, p <> configPath sample_home -> fs1 !! p = sample_fs !! p) /\
    ensureOnboarding sample_parse sample_stringify sample_home fs1
      = (Ok (), fs1).
Proof.
  assert (getConfig sample_parse sample_home sample_fs
            = (Ok (JObj ∅), sample_fs)) as H1 by reflexivity.
  assert (JObj ∅ <> JNull) as H2 by discriminate.
  assert (sample_parse
            (sample_stringify (JObj (<["hasCompletedOnboarding" := JBool true]>
                                       (Object_entries (JObj ∅)))))
          = Some (JObj (<["hasCompletedOnboarding" := JBool true]>
                          (Object_entries (JObj ∅))))) as H3
    by (vm_compute; reflexivity).
  split; [exact H1|]. split; [exact H2|]. split; [exact H3|].
  exact (ensureOnboarding_sets_flag sample_parse sample_stringify sample_home
           sample_fs (JObj ∅) H1 H2 H3).
Defined.

(** * Listing the backups *)

Lemma after_append (w s rest : string) :
  after w s = Some rest <-> s = w +:+ rest.
Proof.
  revert s. induction w as [|a w IH]; intros s; cbn [after].
  - rewrite append_nil. split; congruence.
  - destruct s as [|b s]; [split; discriminate|].
    rewrite append_cons. destruct (Ascii.eqb_spec a b) as [->|Hne].
    + rewrite IH. split; congruence.
    + split; [discriminate | congruence].
Qed.

Lemma after_None (w s : string) :
  after w s = None <-> String.prefix w s = false.
Proof.
  destruct (after w s) as [rest|] eqn:Ha.
  - apply after_append in Ha.
    assert (String.prefix w s = true) as -> by (apply prefix_append; eauto).
    split; discriminate.
  - split; [|reflexivity]. intros _.
    destruct (String.prefix w s) eqn:Hp; [|reflexivity].
    apply prefix_append in Hp as [post Hp].
    apply after_append in Hp. congruence.
Qed.

Lemma endsWith_append (suffix s : string) :
  endsWith suffix s = true <-> exists pre, s = pre +:+ suffix.
Proof.
  induction s as [|c s IH]; cbn [endsWith].
  - rewrite orb_false_r, String.eqb_eq. split.
    + intros <-. now exists "".
    + intros [[|x pre] H]; [now rewrite append_nil in H | discriminate].
  - rewrite orb_true_iff, String.eqb_eq, IH. split.
    + intros [<- | [pre ->]]; [now exists "" | now exists (String c pre)].
    + intros [[|x pre] H].
      * left. now rewrite append_nil in H.
      * right. exists pre. rewrite append_cons in H. congruence.
Qed.

Lemma includes_slash_cons (x : ascii) (s : string) :
  includes "/" (String x s) = Ascii.eqb "/" x || includes "/" s.
Proof.
  cbn [includes String.prefix].
  destruct (ascii_dec "/" x) as [<-|Hne].
  - now destruct s.
  - apply Ascii.eqb_neq in Hne. now rewrite Hne.
Qed.

(** The first segment of [s] is the text without slash that [s] is, or
    that a slash follows in [s]. *)
Lemma first_component_spec (s n : string) :
  first_component s = n <->
  includes "/" n = false /\ (s = n \/ exists rest, s = n +:+ "/" +:+ rest).
Proof.
  revert n. induction s as [|c s IH]; intros n; cbn [first_component].
  - split.
    + intros <-. split; [reflexivity | left; reflexivity].
    + intros [_ [<- | [rest H]]]; [reflexivity|].
      destruct n; rewrite ?append_nil, ?append_cons in H; discriminate.
  - destruct (Ascii.eqb_spec c "/") as [->|Hne].
    + split.
      * intros <-. split; [reflexivity|]. right. exists s.
        now rewrite append_nil.
      * intros [Hi Hs]. destruct n as [|x n]; [reflexivity|].
        rewrite includes_slash_cons in Hi.
        apply orb_false_iff in Hi as [Hx _]. apply Ascii.eqb_neq in Hx.
        destruct Hs as [[= <- _] | [rest Hs]]; [congruence|].
        rewrite append_cons in Hs. injection Hs as <- _. congruence.
    + destruct n as [|x n].
      * split; [discriminate|]. intros [_ [H | [rest H]]]; [discriminate|].
        rewrite append_nil, append_cons in H. injection H as -> _. congruence.
      * split.
        -- intros [= <- H]. apply IH in H as [Hi Hs]. split.
           ++ rewrite includes_slash_cons, Hi, orb_false_r.
              apply Ascii.eqb_neq. congruence.
           ++ destruct Hs as [->|[rest ->]]; [left; reflexivity|].
              right. exists rest. now rewrite append_cons.
        -- intros [Hi Hs]. rewrite includes_slash_cons in Hi.
           apply orb_false_iff in Hi as [_ Hi].
           destruct Hs as [[= -> ->] | [rest Hs]].
           ++ f_equal. apply IH. split; [exact Hi | left; reflexivity].
           ++ rewrite append_cons in Hs. injection Hs as -> ->. f_equal.
              apply IH. split; [exact Hi | right; eauto].
Qed.

(** The file at [p] is reached through the entry [n] of [dir]: it is that
    entry or lies below it. *)
Lemma entry_in_dir_Some (dir p n : string) :
  entry_in_dir dir p = Some n <->
  n <> "" /\ ~ contains "/" n /\
  (p = join dir n \/ exists rest, p = join (join dir n) rest).
Proof.
  assert (forall rest,
            (dir +:+ "/") +:+ rest = join dir n \/
            (exists r, (dir +:+ "/") +:+ rest = join (join dir n) r) ->
            rest = n \/ exists r, rest = n +:+ "/" +:+ r) as Hcut.
  { unfold join. intros rest [H | [r H]]; [left | right; exists r];
      rewrite !append_assoc in H;
      apply (inj (String.append dir)) in H;
      now apply (inj (String.append "/")) in H. }
  unfold entry_in_dir.
  destruct (after (dir +:+ "/") p) as [rest|] eqn:Ha.
  - apply after_append in Ha. subst p.
    remember (first_component rest) as n0 eqn:Hn0. symmetry in Hn0.
    pose proof (proj1 (first_component_spec rest n0) Hn0) as [Hi Hs].
    destruct (String.eqb_spec n0 "") as [He|Hne].
    + split; [discriminate|]. intros (Hn & Hc & Hp). apply Hcut in Hp.
      apply includes_not_contains in Hc.
      assert (first_component rest = n) as Hf
        by (apply first_component_spec; auto).
      congruence.
    + split.
      * intros [= <-]. split; [exact Hne|].
        split; [now apply includes_not_contains|].
        unfold join.
        destruct Hs as [Hs|[r Hs]]; [left | right; exists r];
          rewrite Hs, !append_assoc; reflexivity.
      * intros (Hn & Hc & Hp). apply Hcut in Hp.
        apply includes_not_contains in Hc. f_equal. rewrite <- Hn0.
        apply first_component_spec. auto.
  - split; [discriminate|]. intros (_ & _ & Hp).
    assert (exists rest, p = (dir +:+ "/") +:+ rest) as [rest Hr].
    { unfold join in Hp. destruct Hp as [-> | [r ->]]; eexists;
        rewrite !append_assoc; reflexivity. }
    apply after_append in Hr. congruence.
Qed.

Section BackupList.

Context (homedir : string) (directories : list string).

Local Abbreviation backup_dir := (backupDir homedir).

(** The names that [readdirSync] returns for the backup directory. *)
Lemma readdirSync_names (fs : FS) :
  exists names : list string,
    readdirSync directories backup_dir fs = (Ok names, fs) /\
    NoDup names /\
    forall n, n ∈ names <->
      n <> "" /\ ~ contains "/" n /\
      entry_exists fs directories (join backup_dir n).
Proof.
  eexists. split; [reflexivity|]. split; [apply NoDup_remove_dups|].
  assert (forall p, p ∈ ((map_to_list fs).*1 ++ directories)%list <->
                    present fs directories p) as Hpaths.
  { intros p. rewrite elem_of_app. unfold present. apply or_iff_compat_r.
    split.
    - intros Hp. apply list_elem_of_fmap in Hp as ([q c] & -> & Hqc).
      apply elem_of_map_to_list in Hqc. now exists c.
    - intros [c Hc]. apply list_elem_of_fmap. exists (p, c).
      split; [reflexivity|]. now apply elem_of_map_to_list. }
  intros n. rewrite elem_of_remove_dups, list_elem_of_omap. split.
  - intros (p & Hp & Hn). apply Hpaths in Hp.
    apply entry_in_dir_Some in Hn as (Hne & Hs & Hr).
    split; [exact Hne|]. split; [exact Hs|].
    destruct Hr as [-> | [rest ->]]; [left | right; exists rest]; exact Hp.
  - intros (Hne & Hs & Hr).
    assert (exists p, present fs directories p /\
                      (p = join backup_dir n \/
                       exists rest, p = join (join backup_dir n) rest))
      as (p & Hp & Hpn).
    { destruct Hr as [H | [rest H]]; eexists; (split; [exact H|]); eauto. }
    exists p. split; [now apply Hpaths|]. now apply entry_in_dir_Some.
Qed.

Lemma listBackups_run (fs : FS) (names : list string) :
  readdirSync directories backup_dir fs = (Ok names, fs) ->
  listBackups homedir directories fs =
    (Ok ((fun f => {| entry_path := join backup_dir f; entry_name := f;
                      entry_date := backupDateText f |})
         <$> reverse (sort (filter (fun f => startsWith "settings-" f
                                             && endsWith ".json" f) names))),
     fs).
Proof. intros H. unfold listBackups. run_M. now rewrite H. Qed.

Lemma entry_names (l : list string) :
  entry_name <$> ((fun f => {| entry_path := join backup_dir f; entry_name := f;
                               entry_date := backupDateText f |}) <$> l) = l.
Proof. induction l as [|x l IH]; [reflexivity|]. cbn. now rewrite IH. Qed.

(** The names that [listBackups] keeps, in the order of its result. *)
Lemma listBackups_names (fs : FS) :
  exists names : list string,
    listBackups homedir directories fs =
      (Ok ((fun f => {| entry_path := join backup_dir f; entry_name := f;
                        entry_date := backupDateText f |}) <$> names), fs) /\
    NoDup names /\
    forall n, n ∈ names <->
      startsWith "settings-" n = true /\ endsWith ".json" n = true /\
      ~ contains "/" n /\ entry_exists fs directories (join backup_dir n).
Proof.
  destruct (readdirSync_names fs) as (names & Hr & Hnd & Hin).
  eexists. split; [exact (listBackups_run fs names Hr)|].
  set (keep := fun f : string => startsWith "settings-" f && endsWith ".json" f).
  split.
  - rewrite reverse_Permutation. unfold sort.
    rewrite merge_sort_Permutation. apply NoDup_filter. exact Hnd.
  - intros n. rewrite elem_of_reverse. unfold sort.
    rewrite merge_sort_Permutation, list_elem_of_filter, Hin.
    unfold keep. rewrite andb_True, !Is_true_true. split.
    + intros ([Hp He] & _ & Hs & Hf). auto.
    + intros (Hp & He & Hs & Hf). split; [auto|].
      split; [|auto]. intros ->. discriminate Hp.
Qed.

(** X11.  [listBackups] never throws and changes no file.  It lists the
    entries of the backup directory whose names start with "settings-" and
    end with ".json", each once, with its path in the directory and the
    date text made from its name: every such file and every such
    directory, empty or not; nothing else is listed. *)
Theorem listBackups_lists_backup_files (fs : FS) :
  exists entries : list BackupEntry,
    listBackups homedir directories fs = (Ok entries, fs) /\
    NoDup (entry_name <$> entries) /\
    forall e, e ∈ entries <->
      entry_path e = join backup_dir (entry_name e) /\
      entry_date e = backupDateText (entry_name e) /\
      (exists rest, entry_name e = "settings-" +:+ rest) /\
      (exists stem, entry_name e = stem +:+ ".json") /\
      ~ contains "/" (entry_name e) /\
      entry_exists fs directories (entry_path e).
Proof.
  destruct (listBackups_names fs) as (names & Hl & Hnd & Hin).
  eexists. split; [exact Hl|]. split; [now rewrite entry_names|].
  intros e. rewrite list_elem_of_fmap. split.
  - intros (n & -> & Hn). apply Hin in Hn as (Hp & He & Hs & Hf).
    cbn [entry_path entry_name entry_date].
    apply prefix_append in Hp. apply endsWith_append in He.
    split; [reflexivity|]. split; [reflexivity|]. split; [exact Hp|].
    split; [exact He|]. split; [exact Hs | exact Hf].
  - intros (Hp & Hd & Hpre & Hsuf & Hs & Hf). exists (entry_name e). split.
    + destruct e as [p n d]. cbn [entry_path entry_name entry_date] in *.
      now subst.
    + apply Hin. rewrite <- Hp.
      split; [now apply prefix_append|].
      split; [now apply endsWith_append|]. auto.
Qed.

(** X12.  The entries come in descending order of their names, which for
    names made from timestamps of one format is newest first. *)
Theorem listBackups_descending (fs : FS) :
  exists entries : list BackupEntry,
    listBackups homedir directories fs = (Ok entries, fs) /\
    Sorted (flip String.le) (entry_name <$> entries).
Proof.
  destruct (readdirSync_names fs) as (names & Hr & _).
  eexists. split; [exact (listBackups_run fs names Hr)|].
  rewrite entry_names. apply Sorted_reverse. unfold sort.
  apply (Sorted_merge_sort String.le).
Qed.

(** A backup name has no slash when the timestamp has none. *)
Lemma includes_slash_append (a b : string) :
  includes "/" (a +:+ b) = includes "/" a || includes "/" b.
Proof.
  induction a as [|x a IH].
  - rewrite append_nil. reflexivity.
  - rewrite append_cons, !includes_slash_cons, IH. now rewrite orb_assoc.
Qed.

Lemma includes_slash_dashed (s : string) :
  includes "/" (dash_colons_dots s) = includes "/" s.
Proof.
  induction s as [|x s IH]; [reflexivity|].
  cbn [dash_colons_dots]. rewrite !includes_slash_cons, IH. f_equal.
  destruct (Ascii.eqb_spec x ":") as [->|]; [reflexivity|].
  destruct (Ascii.eqb_spec x ".") as [->|]; reflexivity.
Qed.

(** X13.  A backup just made is in the list: after [createBackup] at an
    instant whose timestamp has no slash, [listBackups] has an entry with
    the path that [createBackup] returned. *)
Theorem createBackup_is_listed (iso : string) (fs : FS) :
  ~ contains "/" iso ->
  exists (p : string) (fs1 : FS) (entries : list BackupEntry),
    createBackup homedir iso fs = (Ok p, fs1) /\
    listBackups homedir directories fs1 = (Ok entries, fs1) /\
    exists e, e ∈ entries /\ entry_path e = p.
Proof.
  intros Hs. rewrite createBackup_run.
  set (fs1 := <[backupPath homedir iso := _]> fs).
  destruct (listBackups_names fs1) as (names & Hl & _ & Hin).
  set (name := "settings-" +:+ dash_colons_dots iso +:+ ".json").
  exists (backupPath homedir iso), fs1. eexists.
  split; [reflexivity|]. split; [exact Hl|].
  exists {| entry_path := join backup_dir name; entry_name := name;
            entry_date := backupDateText name |}.
  split; [|reflexivity].
  apply list_elem_of_fmap. exists name. split; [reflexivity|].
  apply Hin. split; [apply prefix_append; eauto|]. split.
  - apply endsWith_append. exists ("settings-" +:+ dash_colons_dots iso).
    subst name. now rewrite append_assoc.
  - split.
    + apply includes_not_contains. subst name.
      rewrite !includes_slash_append, includes_slash_dashed.
      apply includes_not_contains in Hs. now rewrite Hs.
    + left. left. subst fs1. unfold backupPath. rewrite lookup_insert_eq.
      eauto.
Qed.

End BackupList.

Lemma createBackup_is_listed_witness :
  ~ contains "/" sample_iso /\
  exists (p : string) (fs1 : FS) (entries : list BackupEntry),
    createBackup sample_home sample_iso sample_fs = (Ok p, fs1) /\
    listBackups sample_home
      [join (backupDir sample_home) "settings-empty.json"] fs1
      = (Ok entries, fs1) /\
    exists e, e ∈ entries /\ entry_path e = p.
Proof.
  assert (~ contains "/" sample_iso) as H
    by (apply includes_not_contains; reflexivity).
  split; [exact H|].
  exact (createBackup_is_listed sample_home
           [join (backupDir sample_home) "settings-empty.json"]
           sample_iso sample_fs H).
Defined.

(** ** The date of a backup *)

Lemma includes_dot_cons (x : ascii) (s : string) :
  includes "." (String x s) = Ascii.eqb "." x || includes "." s.
Proof.
  cbn [includes String.prefix].
  destruct (ascii_dec "." x) as [<-|Hne].
  - now destruct s.
  - apply Ascii.eqb_neq in Hne. now rewrite Hne.
Qed.

Lemma dashed_has_no_dot (s : string) : includes "." (dash_colons_dots s) = false.
Proof.
  induction s as [|x s IH]; [reflexivity|].
  cbn [dash_colons_dots]. rewrite includes_dot_cons, IH, orb_false_r.
  destruct (Ascii.eqb_spec x ":") as [->|]; [reflexivity|].
  destruct (Ascii.eqb_spec x ".") as [->|Hne]; [reflexivity|].
  cbn [orb]. apply Ascii.eqb_neq. congruence.
Qed.

Lemma replace_first_prefix (pattern s : string) :
  replace_first pattern "" (pattern +:+ s) = s.
Proof.
  assert (after pattern (pattern +:+ s) = Some s) as H
    by now apply after_append.
  destruct (pattern +:+ s); cbn [replace_first]; now rewrite H.
Qed.

Lemma replace_first_json_suffix (s : string) :
  includes "." s = false -> replace_first ".json" "" (s +:+ ".json") = s.
Proof.
  induction s as [|x s IH]; [reflexivity|].
  rewrite includes_dot_cons, orb_false_iff. intros [Hx Hs].
  rewrite append_cons. cbn [replace_first after]. rewrite Hx.
  now rewrite IH.
Qed.

(** The text from which the date of a backup is made, for a backup that
    [createBackup] named: the dashed timestamp with its time shape
    restored. *)
Lemma backupDateText_created (iso : string) :
  backupDateText ("settings-" +:+ dash_colons_dots iso +:+ ".json") =
    restore_time_colons (dash_colons_dots iso).
Proof.
  unfold backupDateText. rewrite replace_first_prefix.
  rewrite replace_first_json_suffix by apply dashed_has_no_dot. reflexivity.
Qed.

Lemma dash_digit (c : ascii) :
  is_digit c = true ->
  (if Ascii.eqb c ":" || Ascii.eqb c "." then "-"%char else c) = c.
Proof.
  destruct c as [[] [] [] [] [] [] [] []]; try reflexivity; discriminate.
Qed.

(** X14.  [listBackups] does not rebuild the timestamp that
    [createBackup] started from: for the backup made at the instant
    [YYYY-MM-DDTHH:mm:ss.sssZ], the text it gives to [new Date] has the
    colons of the time back, but a dash where the instant has the dot
    before the milliseconds. *)
Theorem backup_date_text
    (Y1 Y2 Y3 Y4 M1 M2 D1 D2 h1 h2 m1 m2 s1 s2 f1 f2 f3 : ascii) :
  Forall (fun c => is_digit c = true)
    [Y1; Y2; Y3; Y4; M1; M2; D1; D2; h1; h2; m1; m2; s1; s2; f1; f2; f3] ->
  backupDateText
    ("settings-"
     +:+ dash_colons_dots
           (string_of_list_ascii
              [Y1; Y2; Y3; Y4; "-"; M1; M2; "-"; D1; D2; "T";
               h1; h2; ":"; m1; m2; ":"; s1; s2; "."; f1; f2; f3; "Z"]%char)
     +:+ ".json") =
    string_of_list_ascii
      [Y1; Y2; Y3; Y4; "-"; M1; M2; "-"; D1; D2; "T";
       h1; h2; ":"; m1; m2; ":"; s1; s2; "-"; f1; f2; f3; "Z"]%char.
Proof.
  intros H. rewrite backupDateText_created.
  repeat match goal with
         | H : Forall _ (_ :: _) |- _ =>
             let Hd := fresh "Hd" in
             apply Forall_cons in H as [Hd H]
         end.
  cbn [string_of_list_ascii dash_colons_dots].
  repeat match goal with
         | Hd : is_digit ?c = true
           |- context [if Ascii.eqb ?c _ || _ then _ else _] =>
             rewrite (dash_digit c Hd)
         end.
  unfold restore_time_colons. cbn [starts_with_shape].
  repeat match goal with
         | Hd : is_digit ?c = true |- _ => rewrite Hd; clear Hd
         end.
  reflexivity.
Qed.

Lemma backup_date_text_witness :
  Forall (fun c => is_digit c = true)
    ["2"; "0"; "2"; "6"; "0"; "2"; "1"; "5"; "1"; "4"; "3"; "0"; "0"; "0";
     "0"; "0"; "0"]%char /\
  backupDateText ("settings-" +:+ dash_colons_dots sample_iso +:+ ".json") =
    "2026-02-15T14:30:00-000Z".
Proof.
  assert (Forall (fun c => is_digit c = true)
            ["2"; "0"; "2"; "6"; "0"; "2"; "1"; "5"; "1"; "4"; "3"; "0"; "0";
             "0"; "0"; "0"; "0"]%char) as H
    by (repeat constructor).
  split; [exact H|].
  exact (backup_date_text "2" "0" "2" "6" "0" "2" "1" "5" "1" "4" "3" "0" "0"
           "0" "0" "0" "0" H).
Defined.

(** * The provider registry *)

(** X15.  [getProvider] finds the provider of the registry that has the
    id, and that one only; for an id that no provider has it returns
    undefined. *)
Theorem getProvider_finds (i : string) :
  (forall p, getProvider i = Some p <-> p ∈ providers /\ id p = i) /\
  (getProvider i = None <-> forall p, p ∈ providers -> id p <> i).
Proof.
  assert (forall p, p ∈ providers -> getProvider (id p) = Some p) as Hfound.
  { intros p Hp. unfold providers in Hp.
    repeat (apply elem_of_cons in Hp as [->|Hp]); [..|inversion Hp];
      reflexivity. }
  split.
  - intros p. split.
    + intros H. unfold getProvider in H.
      apply find_some in H as [Hin He].
      apply String.eqb_eq in He. split; [|exact He].
      now apply list_elem_of_In.
    + intros [Hp <-]. now apply Hfound.
  - split.
    + intros Hn p Hp <-. rewrite (Hfound p Hp) in Hn. discriminate.
    + intros Hn. destruct (getProvider i) as [p|] eqn:Hg; [|reflexivity].
      unfold getProvider in Hg. apply find_some in Hg as [Hin He].
      apply String.eqb_eq in He. exfalso.
      apply (Hn p); [now apply list_elem_of_In | exact He].
Qed.

(** X16.  Detection by base URL goes by prefix: every URL that extends a
    region's base URL, taken without its trailing "/anthropic", is
    attributed to the provider of that region. *)
Theorem detectProviderByBaseUrl_prefix (P : Provider) (R : ProviderRegion)
    (rest : string) :
  P ∈ providers ->
  R ∈ regions P ->
  detectProviderByBaseUrl (strip_anthropic (baseUrl R) +:+ rest) = Some P.
Proof.
  unfold providers. intros HP HR.
  repeat (apply elem_of_cons in HP as [->|HP]); [..|inversion HP];
    cbn [regions claudeProvider zhipuProvider minimaxProvider kimiProvider] in HR;
    repeat (apply elem_of_cons in HR as [->|HR]); try (now inversion HR);
    destruct rest; vm_compute; reflexivity.
Qed.

Lemma detectProviderByBaseUrl_prefix_witness :
  zhipuProvider ∈ providers /\
  exists R : ProviderRegion,
    R ∈ regions zhipuProvider /\
    detectProviderByBaseUrl "https://api.z.ai/api/coding/paas/v4/models"
      = Some zhipuProvider.
Proof.
  assert (zhipuProvider ∈ providers) as HP by (right; left).
  split; [exact HP|]. eexists.
  assert (forall (A : Type) (x y : A), x ∈ [x; y]) as Hin by (intros; left).
  split; [apply Hin|].
  exact (detectProviderByBaseUrl_prefix zhipuProvider _ "/coding/paas/v4/models"
           HP (Hin _ _ _)).
Defined.

(** * The boxes of the wizard *)

Lemma utf16_length_append (a b : string) :
  utf16_length (a +:+ b) = (utf16_length a + utf16_length b)%nat.
Proof.
  induction a as [|x a IH]; [reflexivity|].
  rewrite append_cons. cbn [utf16_length]. rewrite IH. lia.
Qed.

Lemma spaces_S (n : nat) : spaces (S n) = String " " (spaces n).
Proof. reflexivity. Qed.

Lemma utf16_length_spaces (n : nat) : utf16_length (spaces n) = n.
Proof.
  induction n as [|n IH]; [reflexivity|].
  rewrite spaces_S. cbn [utf16_length]. now rewrite IH.
Qed.

Lemma repeat_string_space (count : Z) :
  (0 <= count)%Z -> repeat_string " " count = Some (spaces (Z.to_nat count)).
Proof.
  intros H. unfold repeat_string.
  destruct (Z.ltb_spec count 0); [lia | reflexivity].
Qed.

Lemma repeat_string_None (s : string) (count : Z) :
  repeat_string s count = None <-> (count < 0)%Z.
Proof.
  unfold repeat_string. destruct (Z.ltb_spec count 0); split;
    first [reflexivity | discriminate | lia | intros; assumption].
Qed.

Lemma utf16_length_repeat (fill : string) (count : Z) (line : string) :
  utf16_length fill = 1%nat ->
  repeat_string fill count = Some line ->
  Z.of_nat (utf16_length line) = count.
Proof.
  unfold repeat_string. destruct (Z.ltb_spec count 0); [discriminate|].
  intros Hf [= <-].
  assert (forall n, utf16_length (Nat.iter n (String.append fill) "") = n) as Hn.
  { induction n as [|n IH]; [reflexivity|].
    change (Nat.iter (S n) (String.append fill) "")
      with (fill +:+ Nat.iter n (String.append fill) "").
    rewrite utf16_length_append, Hf, IH. reflexivity. }
  rewrite Hn. lia.
Qed.

(** A text that fits is centred. *)
Lemma contentLine_centred (text l r : string) (w : Z) :
  (Z.of_nat (utf16_length text) <= w - 4)%Z ->
  exists a b : nat,
    contentLine text l r w =
      Some (l +:+ " " +:+ spaces a +:+ text +:+ spaces b +:+ " " +:+ r) /\
    (a <= b <= a + 1)%nat /\
    (Z.of_nat (a + utf16_length text + b) = w - 4)%Z.
Proof.
  intros H. unfold contentLine.
  set (padding := (w - 4 - Z.of_nat (utf16_length text))%Z).
  assert (0 <= padding)%Z as Hp by (subst padding; lia).
  assert (0 <= padding / 2)%Z as Hl by (apply Z.div_pos; lia).
  assert (padding / 2 <= padding - padding / 2 <= padding / 2 + 1)%Z as Hr.
  { pose proof (Z.div_mod padding 2 ltac:(lia)) as Hd.
    pose proof (Z.mod_pos_bound padding 2 ltac:(lia)). lia. }
  rewrite !repeat_string_space by lia. cbn [mbind option_bind].
  exists (Z.to_nat (padding / 2)), (Z.to_nat (padding - padding / 2)).
  split; [reflexivity|]. split; [lia|]. subst padding. lia.
Qed.

(** A text that does not fit makes [String.repeat] throw. *)
Lemma contentLine_too_long (text l r : string) (w : Z) :
  (w - 4 < Z.of_nat (utf16_length text))%Z ->
  contentLine text l r w = None.
Proof.
  intros H. unfold contentLine.
  assert (repeat_string " " ((w - 4 - Z.of_nat (utf16_length text)) / 2)
          = None) as ->; [|reflexivity].
  apply repeat_string_None. apply Z.div_lt_upper_bound; lia.
Qed.

(** X17.  [contentLine] centres a text that fits in the box: the line is
    the text between the two borders with spaces on both sides, at most
    one more on the right than on the left, and with borders of one
    character each it is exactly as wide as the box. *)
Theorem contentLine_fits (text l r : string) (w : Z) :
  (Z.of_nat (utf16_length text) <= w - 4)%Z ->
  exists (line : string) (a b : nat),
    contentLine text l r w = Some line /\
    line = l +:+ " " +:+ spaces a +:+ text +:+ spaces b +:+ " " +:+ r /\
    (a <= b <= a + 1)%nat /\
    Z.of_nat (utf16_length line) =
      (w - 2 + Z.of_nat (utf16_length l) + Z.of_nat (utf16_length r))%Z.
Proof.
  intros H. destruct (contentLine_centred text l r w H) as (a & b & Hc & Hab & Hw).
  eexists _, a, b. split; [exact Hc|]. split; [reflexivity|].
  split; [exact Hab|].
  rewrite !utf16_length_append, !utf16_length_spaces.
  change (utf16_length " ") with 1%nat. lia.
Qed.

Lemma contentLine_fits_witness :
  (Z.of_nat (utf16_length "主菜单") <= 13 - 4)%Z /\
  exists (line : string) (a b : nat),
    contentLine "主菜单" "║" "║" 13 = Some line /\
    line = "║" +:+ " " +:+ spaces a +:+ "主菜单" +:+ spaces b +:+ " " +:+ "║" /\
    (a <= b <= a + 1)%nat /\
    Z.of_nat (utf16_length line) =
      (13 - 2 + Z.of_nat (utf16_length "║") + Z.of_nat (utf16_length "║"))%Z.
Proof.
  assert (Z.of_nat (utf16_length "主菜单") <= 13 - 4)%Z as H
    by (vm_compute; discriminate).
  split; [exact H|].
  exact (contentLine_fits "主菜单" "║" "║" 13 H).
Defined.

(** X18.  [contentLine] throws the [RangeError] of [String.repeat] exactly
    when the text is longer than the box has room for, that is longer than
    the width less four. *)
Theorem contentLine_throws (text l r : string) (w : Z) :
  contentLine text l r w = None <->
  (w - 4 < Z.of_nat (utf16_length text))%Z.
Proof.
  split.
  - intros Hn.
    destruct (Z.le_gt_cases (Z.of_nat (utf16_length text)) (w - 4)) as [H|H];
      [|lia].
    destruct (contentLine_centred text l r w H) as (a & b & Hc & _).
    congruence.
  - apply contentLine_too_long.
Qed.

(** X19.  The banner cannot be printed: every line of its ASCII art is
    wider than the 61 characters that a box of width 65 has room for, so
    making the lines throws, whatever the subtitle. *)
Theorem bannerLines_throws (subtitle : string) :
  bannerLines subtitle = None /\
  Forall (fun a => (65 - 4 < Z.of_nat (utf16_length a))%Z) banner_art.
Proof.
  split; [reflexivity|].
  unfold banner_art. repeat constructor.
Qed.

(** X20.  For a title of at most 59 characters [createBox] prints four
    lines: an empty line and the top border, "╔", 61 times "═", "╗"; the
    title between "║ " and " ║", centred with spaces to the width of the
    box, the odd space on the right; the bottom border, "╚", 61 times "═",
    "╝"; and an empty line.  For a longer title it throws after the top
    border alone has been printed. *)
Theorem createBox_title (title : string) :
  ((utf16_length title <= 59)%nat ->
   exists a b : nat,
     (a <= b <= a + 1)%nat /\
     (a + utf16_length title + b = 59)%nat /\
     createBox title =
       ([newline +:+ "╔" +:+ copies 61 "═" +:+ "╗";
         "║" +:+ " " +:+ spaces a +:+ title +:+ spaces b +:+ " " +:+ "║";
         "╚" +:+ copies 61 "═" +:+ "╝";
         ""], false)) /\
  ((59 < utf16_length title)%nat ->
   createBox title = ([newline +:+ "╔" +:+ copies 61 "═" +:+ "╗"], true)).
Proof.
  split; intros H.
  - assert (Z.of_nat (utf16_length title) <= BOX_WIDTH - 4)%Z as Hw
      by (unfold BOX_WIDTH; lia).
    destruct (contentLine_centred title "║" "║" BOX_WIDTH Hw)
      as (a & b & Hc & Hab & Hlen).
    exists a, b. split; [exact Hab|].
    split; [unfold BOX_WIDTH in Hlen; lia|].
    unfold createBox. rewrite Hc. reflexivity.
  - assert (contentLine title "║" "║" BOX_WIDTH = None) as Hc
      by (apply contentLine_too_long; unfold BOX_WIDTH; lia).
    unfold createBox. rewrite Hc. reflexivity.
Qed.

Lemma createBox_title_witness :
  (utf16_length "Main menu" <= 59)%nat /\
  (exists a b : nat,
     (a <= b <= a + 1)%nat /\
     (a + utf16_length "Main menu" + b = 59)%nat /\
     createBox "Main menu" =
       ([newline +:+ "╔" +:+ copies 61 "═" +:+ "╗";
         "║" +:+ " " +:+ spaces a +:+ "Main menu" +:+ spaces b +:+ " " +:+ "║";
         "╚" +:+ copies 61 "═" +:+ "╝";
         ""], false)) /\
  (59 < utf16_length
          "A title that is far too long to fit in a box that is sixty-three characters wide")%nat /\
  createBox "A title that is far too long to fit in a box that is sixty-three characters wide"
    = ([newline +:+ "╔" +:+ copies 61 "═" +:+ "╗"], true).
Proof.
  assert (utf16_length "Main menu" <= 59)%nat as H1 by (vm_compute; lia).
  assert (59 < utf16_length
            "A title that is far too long to fit in a box that is sixty-three characters wide")%nat
    as H2 by (vm_compute; lia).
  split; [exact H1|]. split; [exact (proj1 (createBox_title _) H1)|].
  split; [exact H2|]. exact (proj2 (createBox_title _) H2).
Defined.

(** X21.  The lines of a box are equally wide: with a fill of one
    character and corners as wide as the side borders, the border line and
    the content line of the same width have the same length. *)
Theorem box_lines_same_width (text l r l' r' fill : string) (w : Z)
    (top middle : string) :
  utf16_length fill = 1%nat ->
  utf16_length l = utf16_length l' ->
  utf16_length r = utf16_length r' ->
  borderLine l r fill w = Some top ->
  contentLine text l' r' w = Some middle ->
  utf16_length top = utf16_length middle.
Proof.
  intros Hf Hl' Hr' Ht Hm. unfold borderLine in Ht.
  destruct (repeat_string fill (w - 2)) as [line|] eqn:Hl; [|discriminate].
  cbn [mbind option_bind] in Ht. injection Ht as <-.
  pose proof (utf16_length_repeat fill (w - 2) line Hf Hl) as Hlen.
  destruct (Z.le_gt_cases (Z.of_nat (utf16_length text)) (w - 4)) as [H|H].
  - destruct (contentLine_centred text l' r' w H) as (a & b & Hc & _ & Hw).
    rewrite Hc in Hm. injection Hm as <-.
    rewrite !utf16_length_append, !utf16_length_spaces.
    change (utf16_length " ") with 1%nat. lia.
  - rewrite contentLine_too_long in Hm by exact H. discriminate.
Qed.

Lemma box_lines_same_width_witness :
  utf16_length "═" = 1%nat /\
  utf16_length "╔" = utf16_length "║" /\
  utf16_length "╗" = utf16_length "║" /\
  exists top middle : string,
    borderLine "╔" "╗" "═" BOX_WIDTH = Some top /\
    contentLine "Main menu" "║" "║" BOX_WIDTH = Some middle /\
    utf16_length top = utf16_length middle.
Proof.
  assert (utf16_length "═" = 1%nat) as H1 by reflexivity.
  assert (utf16_length "╔" = utf16_length "║") as Hl by reflexivity.
  assert (utf16_length "╗" = utf16_length "║") as Hr by reflexivity.
  split; [exact H1|]. split; [exact Hl|]. split; [exact Hr|]. eexists _, _.
  assert (forall top middle,
            borderLine "╔" "╗" "═" BOX_WIDTH = Some top ->
            contentLine "Main menu" "║" "║" BOX_WIDTH = Some middle ->
            borderLine "╔" "╗" "═" BOX_WIDTH = Some top /\
            contentLine "Main menu" "║" "║" BOX_WIDTH = Some middle /\
            utf16_length top = utf16_length middle) as Hall.
  { intros top middle H2 H3. split; [exact H2|]. split; [exact H3|].
    exact (box_lines_same_width "Main menu" "╔" "╗" "║" "║" "═" BOX_WIDTH
             top middle H1 Hl Hr H2 H3). }
  apply Hall; vm_compute; reflexivity.
Defined.

(** * Validation of a credential *)

Section Validation.

Context (fetch : Request -> Response + thrown) (homedir iso : string).

(** The request that [validateApiKey] sends. *)
Local Abbreviation request_for apiKey provider regionId :=
  {| url := getValidateUrl provider regionId; method := "GET";
     headers := [("Authorization", "Bearer " +:+ apiKey);
                 ("Content-Type", "application/json")] |}.

(** [logError] never throws: it appends one entry to the debug log. *)
Lemma logError_run (context : string) (err : thrown) (fs : FS) :
  exists text : string,
    logError homedir iso context err fs =
      (Ok (), <[LOG_FILE homedir :=
                  match fs !! LOG_FILE homedir with
                  | Some content =>
                      content +:+ "[" +:+ iso +:+ "] [" +:+ context +:+ "] "
                      +:+ text
                  | None => "[" +:+ iso +:+ "] [" +:+ context +:+ "] " +:+ text
                  end]> fs).
Proof. eexists. unfold logError, appendFileSync. run_M. reflexivity. Qed.

(** X22.  [validateApiKey] never throws, and its verdict is decided by
    what the request met: the key is valid exactly when a response with a
    status from 200 to 299 arrived; it is reported as an invalid key
    exactly when the status was 401 or 403; and as a network error exactly
    when the request threw (timeout included), never for a response. *)
Theorem validateApiKey_verdict (apiKey : string) (provider : Provider)
    (regionId : string) (fs : FS) :
  exists (result : ValidationResult) (fs' : FS),
    validateApiKey fetch homedir iso apiKey provider regionId fs
      = (Ok result, fs') /\
    (valid result = true <->
     exists response, fetch (request_for apiKey provider regionId) = inl response
                      /\ (200 <= status response <= 299)%Z) /\
    (error result = Some "invalid_api_key" <->
     exists response, fetch (request_for apiKey provider regionId) = inl response
                      /\ (status response = 401 \/ status response = 403)%Z) /\
    (error result = Some "network_error" <->
     exists err, fetch (request_for apiKey provider regionId) = inr err) /\
    (valid result = true <-> error result = None).
Proof.
  unfold validateApiKey.
  destruct (fetch _) as [response|err] eqn:Hf.
  - unfold ok.
    destruct (Z.eqb_spec (status response) 401) as [H1|H1];
      [|destruct (Z.eqb_spec (status response) 403) as [H3|H3]];
      cbn [orb];
      [| |destruct (Z.leb_spec 200 (status response));
          destruct (Z.leb_spec (status response) 299); cbn [andb]];
      (eexists _, _; split; [reflexivity|];
       cbn [valid error];
       repeat split;
       try discriminate;
       try (intros (r & [= <-] & ?); first [lia | reflexivity]);
       try (intros (r & [= <-])); try (intros ([] & [=]));
       try (intros _; eexists; split; [reflexivity|]; lia);
       try (intros (e0 & [=]))).
  - destruct (logError_run "validateApiKey" err fs) as [entry Hl].
    unfold mbind, M_bind. rewrite Hl.
    destruct err as [n m s|text]; [destruct (String.eqb n "AbortError")|];
      (eexists _, _; split; [reflexivity|];
       cbn [valid error];
       repeat split;
       try discriminate;
       try (intros (r & [=] & _));
       try (intros _; eexists; reflexivity)).
Qed.

(** X23.  The only file that [validateApiKey] can change is the debug
    log: nothing is written when a response arrived, and when the request
    threw one entry is appended to the log, after what the log held; the
    entry starts with the instant and the context, "[instant]
    [validateApiKey] ". *)
Theorem validateApiKey_files (apiKey : string) (provider : Provider)
    (regionId : string) (fs : FS) :
  let fs' := (validateApiKey fetch homedir iso apiKey provider regionId fs).2 in
  (forall p, p <> LOG_FILE homedir -> fs' !! p = fs !! p) /\
  (forall response,
     fetch (request_for apiKey provider regionId) = inl response -> fs' = fs) /\
  (forall err,
     fetch (request_for apiKey provider regionId) = inr err ->
     exists text : string,
       fs' !! LOG_FILE homedir =
         Some (match fs !! LOG_FILE homedir with
               | Some content => content
               | None => ""
               end
               +:+ "[" +:+ iso +:+ "] [validateApiKey] " +:+ text)).
Proof.
  cbv zeta. unfold validateApiKey.
  destruct (fetch _) as [response|err] eqn:Hf.
  - destruct ((status response =? 401)%Z || (status response =? 403)%Z);
      [|destruct (ok response)];
      (split; [reflexivity|]; split; [reflexivity|]; intros e0 [=]).
  - destruct (logError_run "validateApiKey" err fs) as [text Hl].
    unfold mbind, M_bind. rewrite Hl.
    set (fs1 := <[LOG_FILE homedir := _]> fs).
    assert (forall r : ValidationResult,
              ((mret r : M ValidationResult) fs1).2 = fs1) as Hret
      by reflexivity.
    destruct err as [n m s|e]; [destruct (String.eqb n "AbortError")|];
      rewrite Hret;
      (split; [intros p Hp; subst fs1; now apply lookup_insert_ne|];
       split; [intros r [=]|];
       intros e0 _; exists text; subst fs1; rewrite lookup_insert_eq;
       destruct (fs !! LOG_FILE homedir); rewrite ?append_nil; reflexivity).
Qed.

End Validation.
